(** * The incremental CFPB complaints flow

    A shallow embedding of [src/orchestration/cfpb_flows.py]: the Prefect task
    [extract_and_load_complaints_task] and the flow
    [cfpb_complaints_incremental_flow], together with the watermark store
    ([utils/state.py]) and the configuration ([cfg/config.py]) they import.

    Python values are modelled as they are built in the source: the result
    of the task and of the flow is a [dict] with string keys, here a
    [gmap string value]; dates travel as strings and are parsed with
    [datetime.strptime(_, "%Y-%m-%d")]; effects (the persisted watermark, the
    external pipeline, raised exceptions) are threaded through a state and
    exception monad.  Calls to [logger] are left out: they touch none of the
    state the flow reads. *)

From Stdlib Require Import ZArith Ascii String.
From stdpp Require Import base strings list gmap.

Local Open Scope Z_scope.

Set Warnings "-register-all".

(** ** Calendar dates and the ["%Y-%m-%d"] format *)

Module Calendar.

(** A [datetime] as [strptime] builds it from a format that has only date
    directives: the time of day is always midnight, so year, month and day
    are all that is left. *)
Record datetime := Date { year : Z; month : Z; day : Z }.

Definition is_leap (y : Z) : bool :=
  (y mod 4 =? 0) && (negb (y mod 100 =? 0) || (y mod 400 =? 0)).

Definition days_in_month (y m : Z) : Z :=
  match m with
  | 2 => if is_leap y then 29 else 28
  | 4 | 6 | 9 | 11 => 30
  | _ => 31
  end.

(** What the [datetime] constructor accepts: MINYEAR is 1, MAXYEAR is
    9999. *)
Definition valid (d : datetime) : bool :=
  (1 <=? year d) && (year d <=? 9999)
  && (1 <=? month d) && (month d <=? 12)
  && (1 <=? day d) && (day d <=? days_in_month (year d) (month d)).

(** [a > b] on two datetimes at midnight. *)
Definition datetime_gt (a b : datetime) : bool :=
  (year b <? year a)
  || ((year a =? year b)
      && ((month b <? month a)
          || ((month a =? month b) && (day b <? day a)))).

(** The value of an ASCII decimal digit between [lo] and [hi]. *)
Definition digit_in (lo hi : Z) (c : ascii) : option Z :=
  let n := Z.of_N (N_of_ascii c) in
  if (48 + lo <=? n) && (n <=? 48 + hi) then Some (n - 48) else None.

Definition digit : ascii -> option Z := digit_in 0 9.

(** [%m] is the regular expression [1[0-2]|0[1-9]|[1-9]]; in the format it
    is followed by a literal dash, so the alternative taken is the one that
    reaches the dash.  Returns the month and what follows the dash. *)
Definition match_month (s : list ascii) : option (Z * list ascii) :=
  match s with
  | a :: b :: r =>
      match r with
      | c :: r' =>
          match digit_in 1 1 a, digit_in 0 2 b, digit_in 0 0 a, digit_in 1 9 b with
          | Some _, Some k, _, _ =>
              if bool_decide (c = "-"%char) then Some (10 + k, r') else None
          | _, _, Some _, Some k =>
              if bool_decide (c = "-"%char) then Some (k, r') else None
          | _, _, _, _ =>
              match digit_in 1 9 a with
              | Some k => if bool_decide (b = "-"%char) then Some (k, r) else None
              | None => None
              end
          end
      | [] =>
          match digit_in 1 9 a with
          | Some k => if bool_decide (b = "-"%char) then Some (k, r) else None
          | None => None
          end
      end
  | _ => None
  end.

(** [%d] is [3[01]|[12]\d|0[1-9]|[1-9]| [1-9]]; it ends the format, and
    [strptime] rejects a string with unconverted data left, so the whole
    rest has to be one of the alternatives. *)
Definition match_day (s : list ascii) : option Z :=
  match s with
  | [a] => digit_in 1 9 a
  | [a; b] =>
      match digit_in 3 3 a, digit_in 0 1 b with
      | Some _, Some k => Some (30 + k)
      | _, _ =>
          match digit_in 1 2 a, digit b with
          | Some j, Some k => Some (10 * j + k)
          | _, _ =>
              if bool_decide (a = "0"%char) || bool_decide (a = " "%char)
              then digit_in 1 9 b else None
          end
      end
  | _ => None
  end.

(** [datetime.strptime(s, "%Y-%m-%d")] as a partial function: [None] where
    Python raises [ValueError] (no match, unconverted data, or a date that
    does not exist).  Only ASCII digits are read as digits. *)
Definition parse_date (s : string) : option datetime :=
  match String.list_ascii_of_string s with
  | y1 :: y2 :: y3 :: y4 :: dash :: r =>
      match digit y1, digit y2, digit y3, digit y4 with
      | Some a, Some b, Some c, Some d =>
          if bool_decide (dash = "-"%char) then
            match match_month r with
            | Some (m, r') =>
                match match_day r' with
                | Some dd =>
                    let dt := Date (1000 * a + 100 * b + 10 * c + d) m dd in
                    if valid dt then Some dt else None
                | None => None
                end
            | None => None
            end
          else None
      | _, _, _, _ => None
      end
  | _ => None
  end.

(** A string of ASCII characters only.  On such a string [parse_date] is
    [strptime]; a decimal digit outside ASCII, which [strptime] reads, is
    not read by [parse_date]. *)
Definition is_ascii (s : string) : bool :=
  forallb (fun c => (N_of_ascii c <? 128)%N) (String.list_ascii_of_string s).

Definition digit_char (n : Z) : ascii := ascii_of_N (Z.to_N (48 + n)).

Definition pad2 (n : Z) : string :=
  String (digit_char (n / 10 mod 10)) (String (digit_char (n mod 10)) "").

Definition pad4 (n : Z) : string :=
  String (digit_char (n / 1000 mod 10))
    (String (digit_char (n / 100 mod 10)) (pad2 n)).

(** The ISO form [YYYY-MM-DD] of a date. *)
Definition isoformat (d : datetime) : string :=
  pad4 (year d) +:+ "-" +:+ pad2 (month d) +:+ "-" +:+ pad2 (day d).

(** [d + timedelta(days=1)]. *)
Definition next_day (d : datetime) : datetime :=
  if day d <? days_in_month (year d) (month d)
  then Date (year d) (month d) (day d + 1)
  else if month d <? 12 then Date (year d) (month d + 1) 1
  else Date (year d + 1) 1 1.

(** [date.toordinal()]: the number of the day, day 1 being 0001-01-01. *)
Definition days_before_year (y : Z) : Z :=
  (y - 1) * 365 + (y - 1) / 4 - (y - 1) / 100 + (y - 1) / 400.

Definition days_before_month (y m : Z) : Z :=
  match m with
  | 1 => 0 | 2 => 31 | 3 => 59 | 4 => 90 | 5 => 120 | 6 => 151 | 7 => 181
  | 8 => 212 | 9 => 243 | 10 => 273 | 11 => 304 | _ => 334
  end + (if (2 <? m) && is_leap y then 1 else 0).

Definition toordinal (d : datetime) : Z :=
  days_before_year (year d) + days_before_month (year d) (month d) + day d.

End Calendar.
Export Calendar.

(** ** Python values *)

(** The values the flow builds: [str], [int], [list] and [dict] with
    string keys. *)
Inductive value :=
| VStr (s : string)
| VInt (n : Z)
| VList (l : list value)
| VDict (d : gmap string value).

(** [x == s] for a string [s], where [x] is the result of [dict.get]: a
    missing key gives Python's [None], which equals no string, and neither
    does an [int], a [list] or a [dict]. *)
Definition py_eq_str (x : option value) (s : string) : bool :=
  match x with
  | Some (VStr t) => bool_decide (t = s)
  | _ => false
  end.

(** ** Exceptions *)

(** A raised exception: its class name, whether the class derives from
    [Exception] (what [except Exception] tests; [KeyboardInterrupt],
    [SystemExit] and [GeneratorExit] derive from [BaseException] only), and
    [str(e)]. *)
Record exn := Exn {
  exn_class : string;
  exn_is_Exception : bool;
  exn_str : string
}.

Definition ValueError (msg : string) : exn := Exn "ValueError" true msg.

(** ** The world of a run *)

(** What a run can be observed to do: invoke the extraction task, and
    write the watermark. *)
Inductive event :=
| Invoke (date_min date_max company_name database_path : string)
| WatermarkWrite (last_loaded_date : string).

Section Flow.

(** The state of the external pipeline (remote API, destination database). *)
Context {Ext : Type}.

(** [create_pipeline(database_path).run(extract_complaints(...))] of
    [pipelines/cfpb_complaints_pipeline.py], opaque to the flow: it may
    change the external state, and either raises or returns a load info,
    of which the task keeps [str(info)]. *)
Variable pipeline_run :
  forall (database_path date_min date_max company_name : string),
    Ext -> Ext * (exn + string).

(** [cfg/config.py]. *)
Variable COMPANIES : list string.
Variable START_DATE : string.

Record World := mkWorld {
  watermark : option string;  (* the persisted last_loaded_date, if any *)
  today : datetime;           (* the current date *)
  ext : Ext;
  trace : list event          (* what has been done so far, oldest first *)
}.

(** Computations that read and change the world and may raise. *)
Definition M (A : Type) : Type := World -> World * (exn + A).

Definition ret {A} (a : A) : M A := fun w => (w, inr a).

Definition raise {A} (e : exn) : M A := fun w => (w, inl e).

Definition bind {A B} (c : M A) (k : A -> M B) : M B :=
  fun w =>
    match c w with
    | (w', inr a) => k a w'
    | (w', inl e) => (w', inl e)
    end.

(** [try: body  except Exception as e: handler(e)]. *)
Definition try_except_Exception {A} (body : M A) (handler : exn -> M A) : M A :=
  fun w =>
    match body w with
    | (w', inl e) => if exn_is_Exception e then handler e w' else (w', inl e)
    | r => r
    end.

Definition emit (ev : event) : M unit :=
  fun w => (mkWorld (watermark w) (today w) (ext w) (trace w ++ [ev]), inr tt).

Definition external (f : Ext -> Ext * (exn + string)) : M string :=
  fun w =>
    let '(x, r) := f (ext w) in
    (mkWorld (watermark w) (today w) x (trace w), r).

Declare Scope flow_scope.
Delimit Scope flow_scope with flow.
Notation "x <- c ;; k" := (bind c (fun x => k))
  (at level 100, c at next level, right associativity) : flow_scope.
Local Open Scope flow_scope.

(** [datetime.strptime(s, "%Y-%m-%d")]; the text of the message is
    shortened. *)
Definition strptime (s : string) : M datetime :=
  match parse_date s with
  | Some d => ret d
  | None => raise (ValueError ("time data " +:+ s +:+ " does not match format %Y-%m-%d"))
  end.

(** *** The watermark store *)

(** Modelled from the spec: [utils/state.py] is missing; [get_last_loaded_date]
    reads the persisted state and returns absent if there is none. *)
Definition get_last_loaded_date : M (option string) :=
  fun w => (w, inr (watermark w)).

(** The current date, as the clock of the world gives it. *)
Definition current_date : M datetime :=
  fun w => (w, inr (today w)).

(** Modelled from the spec: [utils/state.py] is missing; with no watermark the
    window is [(start_date, today)], with a watermark it is
    [(watermark + 1 day, today)], and nothing is clamped.  The watermark is
    kept in ISO form and is read back as a date to add the day. *)
Definition get_next_load_date (start_date : string) : M (string * string) :=
  last_loaded <- get_last_loaded_date ;;
  now <- current_date ;;
  match last_loaded with
  | None => ret (start_date, isoformat now)
  | Some last =>
      last_date <- strptime last ;;
      ret (isoformat (next_day last_date), isoformat now)
  end.

(** Modelled from the spec: [utils/state.py] is missing;
    [update_last_loaded_date] unconditionally overwrites the persisted
    watermark. *)
Definition update_last_loaded_date (d : string) : M unit :=
  fun w => (mkWorld (Some d) (today w) (ext w) (trace w ++ [WatermarkWrite d]), inr tt).

(** Modelled from the spec: [utils/state.py] is missing; [reset_state] clears
    the watermark. *)
Definition reset_state : M unit :=
  fun w => (mkWorld None (today w) (ext w) (trace w), inr tt).

(** *** The task and the flow *)

Definition extract_and_load_complaints_task
    (date_min date_max company_name database_path : string)
  : M (gmap string value) :=
  _ <- emit (Invoke date_min date_max company_name database_path) ;;
  info <- external (pipeline_run database_path date_min date_max company_name) ;;
  ret {[ "company" := VStr company_name;
         "status" := VStr "success";
         "date_range" := VStr (date_min +:+ " to " +:+ date_max);
         "info" := VStr info ]}.

(** The body of [for company in COMPANIES], over the companies still to
    do and the [results] list so far. *)
Fixpoint load_companies (date_min date_max database_path : string)
    (companies : list string) (results : list (gmap string value))
  : M (list (gmap string value)) :=
  match companies with
  | [] => ret results
  | company :: rest =>
      results' <-
        try_except_Exception
          (result <- extract_and_load_complaints_task
                       date_min date_max company database_path ;;
           ret (results ++ [result]))
          (fun e =>
             ret (results ++ [ {[ "company" := VStr company;
                                  "status" := VStr "failed";
                                  "error" := VStr (exn_str e) ]} ])) ;;
      load_companies date_min date_max database_path rest results'
  end.

Definition has_status (s : string) (r : gmap string value) : bool :=
  py_eq_str (r !! "status") s.

Definition cfpb_complaints_incremental_flow (database_path : string)
  : M (gmap string value) :=
  window <- get_next_load_date START_DATE ;;
  let '(date_min, date_max) := window in
  date_min_obj <- strptime date_min ;;
  date_max_obj <- strptime date_max ;;
  if datetime_gt date_min_obj date_max_obj then
    ret {[ "status" := VStr "skipped";
           "message" := VStr "Already up to date";
           "last_date" := VStr date_max ]}
  else
    results <- load_companies date_min date_max database_path COMPANIES [] ;;
    let successful := List.filter (has_status "success") results in
    _ <- (if (length successful =? length COMPANIES)%nat
          then update_last_loaded_date date_max
          else ret tt) ;;
    ret {[ "date_range" := VStr (date_min +:+ " to " +:+ date_max);
           "total_companies" := VInt (Z.of_nat (length COMPANIES));
           "successful" := VInt (Z.of_nat (length successful));
           "failed" :=
             VInt (Z.of_nat (length (List.filter (has_status "failed") results)));
           "results" := VList (VDict <$> results) ]}.

(** *** What a run is observed against *)

(** The run in world [w] computes the window [(date_min, date_max)], and
    the flow reads the two strings as the dates [lo] and [hi]. *)
Definition computes_window (w : World) (date_min date_max : string)
    (lo hi : datetime) : Prop :=
  get_next_load_date START_DATE w = (w, inr (date_min, date_max))
  /\ parse_date date_min = Some lo
  /\ parse_date date_max = Some hi.

(** What the pipeline answers for each company when the companies are
    attempted one after the other from the external state [x]. *)
Fixpoint outcomes (database_path date_min date_max : string)
    (companies : list string) (x : Ext) : list (exn + string) :=
  match companies with
  | [] => []
  | company :: rest =>
      let '(x', r) := pipeline_run database_path date_min date_max company x in
      r :: outcomes database_path date_min date_max rest x'
  end.

(** The external state once the companies have been attempted. *)
Fixpoint ext_after (database_path date_min date_max : string)
    (companies : list string) (x : Ext) : Ext :=
  match companies with
  | [] => x
  | company :: rest =>
      ext_after database_path date_min date_max rest
        (pipeline_run database_path date_min date_max company x).1
  end.

Definition is_success (o : exn + string) : bool :=
  match o with inr _ => true | inl _ => false end.

(** An outcome that [except Exception] keeps inside the loop. *)
Definition absorbed (o : exn + string) : bool :=
  match o with inr _ => true | inl e => exn_is_Exception e end.

(** The Run Result of one company, by outcome. *)
Definition run_result (date_min date_max company : string)
    (o : exn + string) : gmap string value :=
  match o with
  | inr info =>
      {[ "company" := VStr company;
         "status" := VStr "success";
         "date_range" := VStr (date_min +:+ " to " +:+ date_max);
         "info" := VStr info ]}
  | inl e =>
      {[ "company" := VStr company;
         "status" := VStr "failed";
         "error" := VStr (exn_str e) ]}
  end.

(** The Run Summary the flow returns for a result list, and what it
    returns for an empty window. *)
Definition run_summary (date_min date_max : string)
    (results : list (gmap string value)) : gmap string value :=
  {[ "date_range" := VStr (date_min +:+ " to " +:+ date_max);
     "total_companies" := VInt (Z.of_nat (length COMPANIES));
     "successful" :=
       VInt (Z.of_nat (length (List.filter (has_status "success") results)));
     "failed" :=
       VInt (Z.of_nat (length (List.filter (has_status "failed") results)));
     "results" := VList (VDict <$> results) ]}.

Definition skipped_summary (date_max : string) : gmap string value :=
  {[ "status" := VStr "skipped";
     "message" := VStr "Already up to date";
     "last_date" := VStr date_max ]}.

Definition invocations (date_min date_max database_path : string)
    (companies : list string) : list event :=
  (fun company => Invoke date_min date_max company database_path) <$> companies.

(** The dates written to the watermark in a list of events. *)
Definition writes (evs : list event) : list string :=
  omap (fun ev =>
          match ev with
          | WatermarkWrite d => Some d
          | Invoke _ _ _ _ => None
          end) evs.

(** The task invocations in a list of events. *)
Definition invokes (evs : list event) : list event :=
  List.filter (fun ev =>
                 match ev with
                 | Invoke _ _ _ _ => true
                 | WatermarkWrite _ => false
                 end) evs.

(** What happened between world [w] and the later world [w']. *)
Definition new_events (w w' : World) : list event :=
  drop (length (trace w)) (trace w').

(** The external state after the task invocations of a list of events. *)
Definition replay (evs : list event) (x : Ext) : Ext :=
  foldl (fun x ev =>
           match ev with
           | Invoke date_min date_max company database_path =>
               (pipeline_run database_path date_min date_max company x).1
           | WatermarkWrite _ => x
           end) x evs.

End Flow.

Arguments World : clear implicits.
Arguments M : clear implicits.

(** ** Scenarios *)

Module Scenario.

(** A pipeline that counts its runs and always loads. *)
Definition loads (database_path date_min date_max company : string) (n : nat)
  : nat * (exn + string) :=
  (S n, inr ("loaded " +:+ company)).

(** A pipeline that fails for the company [Beta Bank] with an extraction
    error. *)
Definition fails_beta (database_path date_min date_max company : string) (n : nat)
  : nat * (exn + string) :=
  if bool_decide (company = "Beta Bank")
  then (S n, inl (Exn "ExtractionError" true "API returned 503"))
  else (S n, inr ("loaded " +:+ company)).

(** A pipeline that is interrupted from the keyboard while it loads
    [Beta Bank]. *)
Definition interrupted_beta (database_path date_min date_max company : string) (n : nat)
  : nat * (exn + string) :=
  if bool_decide (company = "Beta Bank")
  then (S n, inl (Exn "KeyboardInterrupt" false ""))
  else (S n, inr ("loaded " +:+ company)).

Definition companies : list string := ["Acme Credit"; "Beta Bank"; "Gamma Loans"].

Definition db : string := "database/cfpb_complaints.duckdb".

Definition start : string := "2024-01-01".

(** First run on 2024-01-10. *)
Definition first_run : World nat := mkWorld None (Date 2024 1 10) 0%nat [].

(** A run on 2024-01-08 after the load of 2024-01-05. *)
Definition later_run : World nat :=
  mkWorld (Some "2024-01-05") (Date 2024 1 8) 0%nat [].

(** A second run on the day of the last load. *)
Definition same_day_run : World nat :=
  mkWorld (Some "2024-01-10") (Date 2024 1 10) 0%nat [].

(** What the later run returns when [Beta Bank] fails. *)
Definition later_run_results : list (gmap string value) :=
  [ {[ "company" := VStr "Acme Credit";
       "status" := VStr "success";
       "date_range" := VStr "2024-01-06 to 2024-01-08";
       "info" := VStr "loaded Acme Credit" ]};
    {[ "company" := VStr "Beta Bank";
       "status" := VStr "failed";
       "error" := VStr "API returned 503" ]};
    {[ "company" := VStr "Gamma Loans";
       "status" := VStr "success";
       "date_range" := VStr "2024-01-06 to 2024-01-08";
       "info" := VStr "loaded Gamma Loans" ]} ].

Definition later_run_summary : gmap string value :=
  {[ "date_range" := VStr "2024-01-06 to 2024-01-08";
     "total_companies" := VInt 3;
     "successful" := VInt 2;
     "failed" := VInt 1;
     "results" := VList (VDict <$> later_run_results) ]}.

(** A start date that names a day that does not exist. *)
Definition bad_start : string := "2024-02-30".

(** A run on 2024-01-10 after the load of 2024-01-09: the window is that
    one day. *)
Definition one_day_run : World nat :=
  mkWorld (Some "2024-01-09") (Date 2024 1 10) 0%nat [].

(** Two days after the first run, its watermark in place. *)
Definition two_days_later : World nat :=
  mkWorld (Some "2024-01-10") (Date 2024 1 12) 3%nat [].

(** A pipeline whose answer depends on what was loaded before: the load
    that follows a failed one reports it. *)
Definition remembers (database_path date_min date_max company : string) (n : nat)
  : nat * (exn + string) :=
  if bool_decide (company = "Beta Bank")
  then (n + 10, inl (Exn "ExtractionError" true "API returned 503"))%nat
  else (S n, inr (if (10 <=? n)%nat then "loaded after a failure"
                  else "loaded " +:+ company)).

End Scenario.

(** * Properties of the calendar *)

Section CalendarFacts.

Local Ltac month_cases m :=
  destruct m as [|m|m]; try lia;
  do 4 (try destruct m as [m|m|]; try lia).

Lemma valid_bounds d :
  valid d = true ->
  1 <= year d <= 9999 /\ 1 <= month d <= 12
  /\ 1 <= day d <= days_in_month (year d) (month d).
Proof.
  unfold valid. intros H.
  repeat (apply andb_prop in H as [H ?%Z.leb_le]).
  apply Z.leb_le in H. lia.
Qed.

Lemma days_in_month_bounds y m : 28 <= days_in_month y m <= 31.
Proof.
  unfold days_in_month.
  repeat (case_match; try lia).
Qed.

Lemma is_leap_next y :
  days_before_year (y + 1)
  = days_before_year y + (if is_leap y then 366 else 365).
Proof.
  unfold days_before_year, is_leap.
  replace (y + 1 - 1) with y by lia.
  destruct (Z.eqb_spec (y mod 4) 0) as [H4|H4];
    destruct (Z.eqb_spec (y mod 100) 0) as [H100|H100];
    destruct (Z.eqb_spec (y mod 400) 0) as [H400|H400]; simpl;
    Z.to_euclidean_division_equations; lia.
Qed.

(** [next_day] is the day after: the ordinal grows by one, across the
    ends of months and years and in leap years. *)
Lemma next_day_ordinal d :
  valid d = true -> toordinal (next_day d) = toordinal d + 1.
Proof.
  intros Hv. apply valid_bounds in Hv as (Hy & Hm & Hd).
  destruct d as [y m dd]. simpl in *. unfold next_day, toordinal. simpl.
  destruct (dd <? days_in_month y m) eqn:Hlt; simpl; [lia|].
  apply Z.ltb_ge in Hlt. assert (dd = days_in_month y m) as -> by lia.
  destruct (m <? 12) eqn:Hm12; simpl.
  - apply Z.ltb_lt in Hm12.
    unfold days_before_month, days_in_month.
    month_cases m; simpl; destruct (is_leap y); simpl; lia.
  - apply Z.ltb_ge in Hm12. assert (m = 12) as -> by lia.
    rewrite is_leap_next. unfold days_before_month, days_in_month. simpl.
    destruct (is_leap y); lia.
Qed.

Lemma next_day_gt d : valid d = true -> datetime_gt (next_day d) d = true.
Proof.
  intros Hv. apply valid_bounds in Hv as (Hy & Hm & Hd).
  destruct d as [y m dd]. simpl in *. unfold next_day, datetime_gt. simpl.
  repeat (case_match; simpl); lia.
Qed.

Lemma digit_digit_char k : 0 <= k <= 9 -> digit (digit_char k) = Some k.
Proof.
  intros Hk. destruct k as [|k|k]; try lia; [done|].
  do 4 (try destruct k as [k|k|]; try lia); done.
Qed.

Lemma match_month_digits m r :
  1 <= m <= 12 ->
  match_month (digit_char (m / 10 mod 10) :: digit_char (m mod 10) :: "-"%char :: r)
  = Some (m, r).
Proof. intros Hm. month_cases m; done. Qed.

Lemma match_day_digits d :
  1 <= d <= 31 ->
  match_day [digit_char (d / 10 mod 10); digit_char (d mod 10)] = Some d.
Proof.
  intros Hd. destruct d as [|d|d]; try lia.
  do 5 (try destruct d as [d|d|]; try lia); done.
Qed.

Lemma four_digits y :
  0 <= y <= 9999 ->
  1000 * (y / 1000 mod 10) + 100 * (y / 100 mod 10) + 10 * (y / 10 mod 10)
  + y mod 10 = y.
Proof. intros Hy. Z.to_euclidean_division_equations. lia. Qed.

(** Reading back the ISO form of a date gives the date. *)
Lemma parse_isoformat d : valid d = true -> parse_date (isoformat d) = Some d.
Proof.
  intros Hv. pose proof (valid_bounds d Hv) as (Hy & Hm & Hd).
  pose proof (days_in_month_bounds (year d) (month d)) as Hdim.
  destruct d as [y m dd]. simpl in Hy, Hm, Hd, Hdim.
  unfold parse_date, isoformat, pad4, pad2.
  cbv [year month day String.append String.list_ascii_of_string].
  rewrite !digit_digit_char
    by (match goal with |- _ <= ?a mod 10 <= _ =>
          pose proof (Z.mod_pos_bound a 10); lia end).
  rewrite bool_decide_eq_true_2 by done.
  rewrite match_month_digits by done.
  rewrite match_day_digits by lia.
  rewrite four_digits by lia. by rewrite Hv.
Qed.

Lemma parse_date_valid s d : parse_date s = Some d -> valid d = true.
Proof.
  unfold parse_date. intros H.
  repeat (case_match; try done). by injection H as <-.
Qed.

End CalendarFacts.

(** * Properties of the watermark store *)

Section WatermarkStore.

Context {Ext : Type}.
Implicit Types (w : World Ext) (s : string).

Lemma get_next_load_date_some s w last d :
  watermark w = Some last ->
  parse_date last = Some d ->
  get_next_load_date s w
  = (w, inr (isoformat (next_day d), isoformat (today w))).
Proof.
  intros Hw Hd.
  unfold get_next_load_date, bind, get_last_loaded_date, current_date, strptime,
    ret.
  by rewrite Hw, Hd.
Qed.

(** The window always ends today. *)
Lemma get_next_load_date_today s w date_min date_max :
  get_next_load_date s w = (w, inr (date_min, date_max)) ->
  date_max = isoformat (today w).
Proof.
  unfold get_next_load_date, bind, get_last_loaded_date, current_date, strptime,
    ret, raise.
  destruct (watermark w) as [last|]; [|by intros [= _ <-]].
  destruct (parse_date last); [by intros [= _ <-]|done].
Qed.

(** Computing the window changes nothing. *)
Lemma get_next_load_date_world s w : (get_next_load_date s w).1 = w.
Proof.
  unfold get_next_load_date, bind, get_last_loaded_date, current_date, strptime,
    ret, raise.
  destruct (watermark w) as [last|]; [|done].
  by destruct (parse_date last).
Qed.

(** Two calls in a row give the same window. *)
Lemma get_next_load_date_twice s w :
  get_next_load_date s (get_next_load_date s w).1 = get_next_load_date s w.
Proof. by rewrite get_next_load_date_world. Qed.

Lemma reset_then_get_last_loaded_date w :
  (get_last_loaded_date (reset_state w).1).2 = inr None.
Proof. done. Qed.

Lemma update_then_get_last_loaded_date d w :
  (get_last_loaded_date (update_last_loaded_date d w).1).2 = inr (Some d).
Proof. done. Qed.

(** C4: with no watermark [get_next_load_date s] returns the window
    [(s, today)]; with a watermark it returns [(watermark + 1 day, today)],
    the day after in the calendar.  Nothing is clamped: when the watermark
    is today the window starts after its end. *)
Theorem get_next_load_date_window s w :
  (watermark w = None ->
   get_next_load_date s w = (w, inr (s, isoformat (today w))))
  /\ (forall last d,
       watermark w = Some last ->
       parse_date last = Some d ->
       get_next_load_date s w
       = (w, inr (isoformat (next_day d), isoformat (today w)))
       /\ toordinal (next_day d) = toordinal d + 1)
  /\ (forall d,
       watermark w = Some (isoformat d) ->
       valid d = true ->
       get_next_load_date s w
       = (w, inr (isoformat (next_day d), isoformat (today w)))
       /\ (today w = d -> datetime_gt (next_day d) (today w) = true)).
Proof.
  split_and!.
  - intros Hw.
    unfold get_next_load_date, bind, get_last_loaded_date, current_date, ret.
    by rewrite Hw.
  - intros last d Hw Hd. split; [by eapply get_next_load_date_some|].
    apply next_day_ordinal. by eapply parse_date_valid.
  - intros d Hw Hv. split.
    + eapply get_next_load_date_some; [done|]. by apply parse_isoformat.
    + intros ->. by apply next_day_gt.
Qed.

End WatermarkStore.

(** * Properties of the flow *)

Section FlowProperties.

Context {Ext : Type}.
Variable pipeline_run :
  string -> string -> string -> string -> Ext -> Ext * (exn + string).
Variable COMPANIES : list string.
Variable START_DATE : string.

Abbreviation flow := (cfpb_complaints_incremental_flow pipeline_run COMPANIES START_DATE).
Abbreviation loop := (load_companies pipeline_run).
Abbreviation task := (extract_and_load_complaints_task pipeline_run).
Abbreviation outs := (outcomes pipeline_run).
Abbreviation after := (ext_after pipeline_run).
Abbreviation window := (computes_window START_DATE).

Implicit Types (w : World Ext) (c company db date_min date_max : string).
Implicit Types (cs : list string) (results rs : list (gmap string value)).

(** ** Run Results *)

Lemma has_status_success date_min date_max c o :
  has_status "success" (run_result date_min date_max c o) = is_success o.
Proof. by destruct o. Qed.

Lemma has_status_failed date_min date_max c o :
  has_status "failed" (run_result date_min date_max c o) = negb (is_success o).
Proof. by destruct o. Qed.

Lemma run_result_company date_min date_max c o :
  run_result date_min date_max c o !! "company" = Some (VStr c).
Proof. by destruct o. Qed.

Lemma outcomes_length db date_min date_max cs x :
  length (outs db date_min date_max cs x) = length cs.
Proof.
  revert x. induction cs as [|c cs IH]; intros x; simpl; [done|].
  destruct (pipeline_run _ _ _ _ _) as [x' o]. simpl. by rewrite IH.
Qed.

Lemma outcomes_cons db date_min date_max c cs x :
  outs db date_min date_max (c :: cs) x
  = (pipeline_run db date_min date_max c x).2
      :: outs db date_min date_max cs (pipeline_run db date_min date_max c x).1.
Proof. simpl. by destruct (pipeline_run _ _ _ _ _). Qed.

(** ** The task and one turn of the loop *)

Lemma task_unfold date_min date_max c db w :
  task date_min date_max c db w
  = (mkWorld (watermark w) (today w)
       (pipeline_run db date_min date_max c (ext w)).1
       (trace w ++ [Invoke date_min date_max c db]),
     match (pipeline_run db date_min date_max c (ext w)).2 with
     | inl e => inl e
     | inr info => inr (run_result date_min date_max c (inr info))
     end).
Proof.
  unfold extract_and_load_complaints_task, bind, emit, external, ret. simpl.
  by destruct (pipeline_run _ _ _ _ _) as [x [e|info]].
Qed.

Lemma loop_cons date_min date_max db c cs results w :
  let o := (pipeline_run db date_min date_max c (ext w)).2 in
  let w1 := mkWorld (watermark w) (today w)
              (pipeline_run db date_min date_max c (ext w)).1
              (trace w ++ [Invoke date_min date_max c db]) in
  loop date_min date_max db (c :: cs) results w
  = match o with
    | inl e =>
        if exn_is_Exception e
        then loop date_min date_max db cs
               (results ++ [run_result date_min date_max c o]) w1
        else (w1, inl e)
    | inr _ =>
        loop date_min date_max db cs
          (results ++ [run_result date_min date_max c o]) w1
    end.
Proof.
  intros o w1. subst o w1. cbn [load_companies].
  unfold bind at 1. unfold try_except_Exception. unfold bind at 1.
  rewrite task_unfold.
  destruct (pipeline_run _ _ _ _ _) as [x [e|info]]; simpl; [|done].
  by destruct (exn_is_Exception e).
Qed.

(** ** The whole loop *)

(** Either every outcome is absorbed and the loop returns one Run Result
    per company, or the first outcome that is not stops it there. *)
Lemma loop_spec date_min date_max db cs : forall results w,
  let r := loop date_min date_max db cs results w in
  watermark r.1 = watermark w /\ today r.1 = today w /\
  match r.2 with
  | inr rs =>
      forallb absorbed (outs db date_min date_max cs (ext w)) = true
      /\ trace r.1 = trace w ++ invocations date_min date_max db cs
      /\ ext r.1 = after db date_min date_max cs (ext w)
      /\ rs = results ++ zip_with (run_result date_min date_max) cs
                          (outs db date_min date_max cs (ext w))
  | inl e =>
      exn_is_Exception e = false
      /\ exists k,
          (k < length cs)%nat
          /\ outs db date_min date_max cs (ext w) !! k = Some (inl e)
          /\ forallb absorbed (take k (outs db date_min date_max cs (ext w))) = true
          /\ trace r.1 = trace w ++ invocations date_min date_max db (take (S k) cs)
          /\ ext r.1 = after db date_min date_max (take (S k) cs) (ext w)
  end.
Proof.
  induction cs as [|c cs IH]; intros results w.
  - simpl. by rewrite !app_nil_r.
  - intros r. subst r. rewrite loop_cons, outcomes_cons.
    set (x1 := (pipeline_run db date_min date_max c (ext w)).1).
    set (o := (pipeline_run db date_min date_max c (ext w)).2).
    set (w1 := mkWorld _ _ _ _).
    assert (Hgo :
      absorbed o = true ->
      let r := loop date_min date_max db cs
                 (results ++ [run_result date_min date_max c o]) w1 in
      watermark r.1 = watermark w /\ today r.1 = today w /\
      match r.2 with
      | inr rs =>
          forallb absorbed (o :: outs db date_min date_max cs x1) = true
          /\ trace r.1 = trace w ++ invocations date_min date_max db (c :: cs)
          /\ ext r.1 = after db date_min date_max (c :: cs) (ext w)
          /\ rs = results ++ zip_with (run_result date_min date_max) (c :: cs)
                              (o :: outs db date_min date_max cs x1)
      | inl e =>
          exn_is_Exception e = false
          /\ exists k,
              (k < length (c :: cs))%nat
              /\ (o :: outs db date_min date_max cs x1) !! k = Some (inl e)
              /\ forallb absorbed (take k (o :: outs db date_min date_max cs x1)) = true
              /\ trace r.1 = trace w ++ invocations date_min date_max db (take (S k) (c :: cs))
              /\ ext r.1 = after db date_min date_max (take (S k) (c :: cs)) (ext w)
      end).
    { intros Ho r.
      destruct (IH (results ++ [run_result date_min date_max c o]) w1)
        as (Hwm & Htd & Hr).
      fold r in Hwm, Htd, Hr. split; [done|]. split; [done|].
      destruct (r.2) as [e|rs].
      - destruct Hr as (He & k & Hk & Hlk & Hpre & Htr & Hext).
        split; [done|]. exists (S k). simpl in *.
        rewrite Ho. split_and!; try done; try lia.
        rewrite Htr. by rewrite <- app_assoc.
      - destruct Hr as (Hall & Htr & Hext & Hrs). simpl in *.
        rewrite Ho, Hall. split_and!; try done.
        + rewrite Htr. by rewrite <- app_assoc.
        + rewrite Hrs. by rewrite <- app_assoc. }
    destruct o as [e|info] eqn:Eo.
    + destruct (exn_is_Exception e) eqn:Ee.
      * apply Hgo. done.
      * simpl. split_and!; try done.
        exists 0%nat. simpl. split_and!; try done; lia.
    + by apply Hgo.
Qed.

(** ** Counting Run Results *)

Lemma count_success date_min date_max cs (os : list (exn + string)) :
  length os = length cs ->
  length (List.filter (has_status "success")
            (zip_with (run_result date_min date_max) cs os))
  = length (List.filter is_success os).
Proof.
  revert os. induction cs as [|c cs IH]; intros [|o os] Hlen; try done.
  simpl in *. rewrite has_status_success.
  destruct (is_success o); simpl; rewrite IH; auto.
Qed.

Lemma count_failed date_min date_max cs (os : list (exn + string)) :
  length os = length cs ->
  length (List.filter (has_status "failed")
            (zip_with (run_result date_min date_max) cs os))
  = length (List.filter (fun o => negb (is_success o)) os).
Proof.
  revert os. induction cs as [|c cs IH]; intros [|o os] Hlen; try done.
  simpl in *. rewrite has_status_failed.
  destruct (is_success o); simpl; rewrite IH; auto.
Qed.


Lemma results_status date_min date_max cs (os : list (exn + string)) :
  Forall (fun r => (r !! "status" = Some (VStr "success")
                    /\ has_status "failed" r = false)
                   \/ (r !! "status" = Some (VStr "failed")
                       /\ has_status "success" r = false))
    (zip_with (run_result date_min date_max) cs os).
Proof.
  revert os. induction cs as [|c cs IH]; intros [|o os]; simpl; try done.
  constructor; [|apply IH]. destruct o; [right|left]; done.
Qed.

Lemma filter_length_le {A} (f : A -> bool) (l : list A) :
  (length (List.filter f l) <= length l)%nat.
Proof. induction l as [|a l IH]; simpl; [lia|]. destruct (f a); simpl; lia. Qed.

Lemma filter_length_all {A} (f : A -> bool) (l : list A) :
  (length (List.filter f l) =? length l)%nat = forallb f l.
Proof.
  induction l as [|a l IH]; [done|]. simpl.
  pose proof (filter_length_le f l) as Hle.
  destruct (f a); simpl; [done|].
  apply Nat.eqb_neq. lia.
Qed.

Lemma filter_length_split {A} (f : A -> bool) (l : list A) :
  (length (List.filter f l) + length (List.filter (fun a => negb (f a)) l)
   = length l)%nat.
Proof. induction l as [|a l IH]; simpl; [done|]. destruct (f a); simpl; lia. Qed.

Lemma forallb_success_absorbed (os : list (exn + string)) :
  forallb is_success os = true -> forallb absorbed os = true.
Proof.
  induction os as [|[e|info] os IH]; simpl; try done.
Qed.

(** ** The flow, by cases *)

Lemma flow_window db w date_min date_max lo hi :
  window w date_min date_max lo hi ->
  flow db w
  = if datetime_gt lo hi then (w, inr (skipped_summary date_max))
    else
      match loop date_min date_max db COMPANIES [] w with
      | (w1, inl e) => (w1, inl e)
      | (w1, inr results) =>
          if (length (List.filter (has_status "success") results)
              =? length COMPANIES)%nat
          then (mkWorld (Some date_max) (today w1) (ext w1)
                  (trace w1 ++ [WatermarkWrite date_max]),
                inr (run_summary COMPANIES date_min date_max results))
          else (w1, inr (run_summary COMPANIES date_min date_max results))
      end.
Proof.
  intros (Hnext & Hlo & Hhi).
  unfold cfpb_complaints_incremental_flow. unfold bind at 1. rewrite Hnext.
  unfold bind at 1. unfold strptime at 1. rewrite Hlo. unfold ret at 1.
  unfold bind at 1. unfold strptime at 1. rewrite Hhi. unfold ret at 1.
  destruct (datetime_gt lo hi); [done|].
  unfold bind at 1.
  destruct (loop date_min date_max db COMPANIES [] w) as [w1 [e|results]]; [done|].
  unfold bind.
  by destruct (_ =? _)%nat.
Qed.

Lemma forallb_lookup {A} (f : A -> bool) (l : list A) k a :
  forallb f l = true -> l !! k = Some a -> f a = true.
Proof.
  revert k. induction l as [|b l IH]; intros [|k] Hall Hk; simpl in *; try done.
  - injection Hk as ->. by apply andb_prop in Hall as [? _].
  - apply andb_prop in Hall as [_ ?]. eauto.
Qed.

Lemma forallb_lookup_false {A} (f : A -> bool) (l : list A) k a :
  l !! k = Some a -> f a = false -> forallb f l = false.
Proof.
  intros Hk Ha. destruct (forallb f l) eqn:Hall; [|done].
  by rewrite (forallb_lookup f l k a Hall Hk) in Ha.
Qed.

Lemma success_count db date_min date_max w :
  (length (List.filter (has_status "success")
             (zip_with (run_result date_min date_max) COMPANIES
                (outs db date_min date_max COMPANIES (ext w))))
   =? length COMPANIES)%nat
  = forallb is_success (outs db date_min date_max COMPANIES (ext w)).
Proof.
  rewrite count_success by apply outcomes_length.
  rewrite <- (outcomes_length db date_min date_max COMPANIES (ext w)) at 1.
  apply filter_length_all.
Qed.

(** A run over a window that is not empty, when nothing interrupts the
    loop: every company is attempted, and the watermark is written after
    the last one if all of them loaded. *)
Lemma flow_complete db w date_min date_max lo hi :
  window w date_min date_max lo hi ->
  datetime_gt lo hi = false ->
  forallb absorbed (outs db date_min date_max COMPANIES (ext w)) = true ->
  let os := outs db date_min date_max COMPANIES (ext w) in
  flow db w
  = (mkWorld (if forallb is_success os then Some date_max else watermark w)
       (today w)
       (after db date_min date_max COMPANIES (ext w))
       (trace w ++ invocations date_min date_max db COMPANIES
          ++ (if forallb is_success os then [WatermarkWrite date_max] else [])),
     inr (run_summary COMPANIES date_min date_max
            (zip_with (run_result date_min date_max) COMPANIES os))).
Proof.
  intros Hwin Hgt Habs os. rewrite (flow_window _ _ _ _ _ _ Hwin), Hgt.
  pose proof (loop_spec date_min date_max db COMPANIES [] w) as Hloop.
  destruct (loop date_min date_max db COMPANIES [] w) as [w1 [e|results]];
    simpl in Hloop.
  - destruct Hloop as (_ & _ & He & k & _ & Hk & _).
    pose proof (forallb_lookup absorbed _ k (inl e) Habs Hk) as Hk'.
    simpl in Hk'. congruence.
  - destruct Hloop as (Hwm & Htd & _ & Htr & Hext & ->). simpl.
    rewrite success_count. fold os.
    destruct w1 as [wm1 td1 x1 tr1]; simpl in *; subst.
    destruct (forallb is_success os); [|by rewrite app_nil_r].
    by rewrite <- app_assoc.
Qed.

(** A run over a window that is not empty, when some company's outcome
    is not absorbed: the first such exception leaves the flow, after the
    companies up to that one have been attempted. *)
Lemma flow_interrupted db w date_min date_max lo hi :
  window w date_min date_max lo hi ->
  datetime_gt lo hi = false ->
  forallb absorbed (outs db date_min date_max COMPANIES (ext w)) = false ->
  exists e k,
    flow db w
    = (mkWorld (watermark w) (today w)
         (after db date_min date_max (take (S k) COMPANIES) (ext w))
         (trace w ++ invocations date_min date_max db (take (S k) COMPANIES)),
       inl e)
    /\ exn_is_Exception e = false
    /\ (k < length COMPANIES)%nat
    /\ outs db date_min date_max COMPANIES (ext w) !! k = Some (inl e).
Proof.
  intros Hwin Hgt Habs. rewrite (flow_window _ _ _ _ _ _ Hwin), Hgt.
  pose proof (loop_spec date_min date_max db COMPANIES [] w) as Hloop.
  destruct (loop date_min date_max db COMPANIES [] w) as [w1 [e|results]];
    simpl in Hloop.
  - destruct Hloop as (Hwm & Htd & He & k & Hlt & Hk & _ & Htr & Hext).
    exists e, k. split_and!; try done.
    destruct w1; simpl in *; by subst.
  - destruct Hloop as (_ & _ & Hall & _). congruence.
Qed.

(** What a run that returns over a window that is not empty has done. *)
Lemma flow_returns_inv db w date_min date_max lo hi s :
  window w date_min date_max lo hi ->
  datetime_gt lo hi = false ->
  (flow db w).2 = inr s ->
  let os := outs db date_min date_max COMPANIES (ext w) in
  forallb absorbed os = true
  /\ s = run_summary COMPANIES date_min date_max
           (zip_with (run_result date_min date_max) COMPANIES os)
  /\ new_events w (flow db w).1
     = invocations date_min date_max db COMPANIES
         ++ (if forallb is_success os then [WatermarkWrite date_max] else []).
Proof.
  intros Hwin Hgt Hs os.
  destruct (forallb absorbed os) eqn:Habs.
  - rewrite (flow_complete _ _ _ _ _ _ Hwin Hgt Habs) in Hs |- *.
    simpl in *. injection Hs as <-. split_and!; try done.
    unfold new_events. simpl. by rewrite drop_app_length.
  - destruct (flow_interrupted _ _ _ _ _ _ Hwin Hgt Habs) as (e & k & Hf & _).
    by rewrite Hf in Hs.
Qed.

(** Every run either stops on a window it cannot read, the world
    untouched, or computes a window. *)
Lemma flow_cases db w :
  (exists e, flow db w = (w, inl e))
  \/ (exists date_min date_max lo hi, window w date_min date_max lo hi).
Proof.
  pose proof (get_next_load_date_world START_DATE w) as Hw.
  destruct (get_next_load_date START_DATE w) as [w1 [e|[date_min date_max]]] eqn:Hn;
    simpl in Hw; subst w1.
  { left. exists e. unfold cfpb_complaints_incremental_flow, bind. by rewrite Hn. }
  destruct (parse_date date_min) as [lo|] eqn:Hlo.
  2:{ left. eexists. unfold cfpb_complaints_incremental_flow. unfold bind at 1.
      rewrite Hn. unfold bind at 1, strptime at 1. rewrite Hlo. reflexivity. }
  destruct (parse_date date_max) as [hi|] eqn:Hhi.
  2:{ left. eexists. unfold cfpb_complaints_incremental_flow. unfold bind at 1.
      rewrite Hn. unfold bind at 1, strptime at 1. rewrite Hlo. unfold ret at 1.
      unfold bind at 1, strptime at 1. rewrite Hhi. reflexivity. }
  right. by exists date_min, date_max, lo, hi.
Qed.

Lemma new_events_same w : new_events w w = [].
Proof. unfold new_events. apply drop_all. Qed.

Lemma invokes_app evs evs' :
  invokes (evs ++ evs') = invokes evs ++ invokes evs'.
Proof. apply List.filter_app. Qed.

Lemma invokes_invocations date_min date_max db cs :
  invokes (invocations date_min date_max db cs)
  = invocations date_min date_max db cs.
Proof. induction cs as [|c cs IH]; simpl; [done|]. f_equal. apply IH. Qed.

Lemma writes_invocations date_min date_max db cs :
  writes (invocations date_min date_max db cs) = [].
Proof. by induction cs. Qed.

Lemma writes_app evs evs' : writes (evs ++ evs') = writes evs ++ writes evs'.
Proof. apply omap_app. Qed.

Lemma run_summary_dom date_min date_max rs :
  dom (run_summary COMPANIES date_min date_max rs)
  = {[ "date_range"; "total_companies"; "successful"; "failed"; "results" ]}.
Proof.
  unfold run_summary. rewrite !dom_insert_L, dom_singleton_L. set_solver.
Qed.

Lemma skipped_summary_dom date_max :
  dom (skipped_summary date_max) = {[ "status"; "message"; "last_date" ]}.
Proof.
  unfold skipped_summary. rewrite !dom_insert_L, dom_singleton_L. set_solver.
Qed.

Lemma replay_invocations date_min date_max db cs x :
  replay pipeline_run (invocations date_min date_max db cs) x
  = after db date_min date_max cs x.
Proof. revert x. induction cs as [|c cs IH]; intros x; simpl; [done|]. apply IH. Qed.

Lemma replay_app evs evs' x :
  replay pipeline_run (evs ++ evs') x
  = replay pipeline_run evs' (replay pipeline_run evs x).
Proof. apply foldl_app. Qed.

Lemma run_result_dom date_min date_max c o :
  dom (run_result date_min date_max c o)
  = match o with
    | inr _ => {[ "company"; "status"; "date_range"; "info" ]}
    | inl _ => {[ "company"; "status"; "error" ]}
    end.
Proof.
  destruct o; simpl; rewrite !dom_insert_L, dom_singleton_L;
    apply (bool_decide_unpack _); by vm_compute.
Qed.

(** ** The properties of the specification *)

(** C2: a run whose computed window is empty ([date_min > date_max])
    invokes the task for no company, writes no watermark, changes nothing
    in the world, and returns a summary whose status is [skipped]. *)
Theorem empty_window_is_skipped db w date_min date_max lo hi :
  window w date_min date_max lo hi ->
  datetime_gt lo hi = true ->
  exists s,
    flow db w = (w, inr s)
    /\ s !! "status" = Some (VStr "skipped")
    /\ invokes (new_events w (flow db w).1) = []
    /\ writes (new_events w (flow db w).1) = []
    /\ watermark (flow db w).1 = watermark w.
Proof.
  intros Hwin Hgt. exists (skipped_summary date_max).
  rewrite (flow_window _ _ _ _ _ _ Hwin), Hgt. simpl.
  rewrite new_events_same. by split_and!.
Qed.

(** C10: when the window is empty the value returned is exactly the dict
    with the keys [status], [message] and [last_date], the last being the
    computed [date_max]; it has none of the keys of the summary of a run
    over a window that is not empty, which in turn has no [status]. *)
Theorem skipped_summary_shape db w date_min date_max lo hi :
  window w date_min date_max lo hi ->
  datetime_gt lo hi = true ->
  (flow db w).2
  = inr {[ "status" := VStr "skipped";
           "message" := VStr "Already up to date";
           "last_date" := VStr date_max ]}
  /\ forall s, (flow db w).2 = inr s ->
       dom s = {[ "status"; "message"; "last_date" ]}
       /\ s !! "last_date" = Some (VStr date_max)
       /\ s !! "date_range" = None
       /\ s !! "total_companies" = None
       /\ s !! "successful" = None
       /\ s !! "failed" = None
       /\ s !! "results" = None
       /\ forall db' w' date_min' date_max' lo' hi' s',
            window w' date_min' date_max' lo' hi' ->
            datetime_gt lo' hi' = false ->
            (flow db' w').2 = inr s' ->
            dom s' = {[ "date_range"; "total_companies"; "successful";
                        "failed"; "results" ]}
            /\ dom s ## dom s'.
Proof.
  intros Hwin Hgt. rewrite (flow_window _ _ _ _ _ _ Hwin), Hgt. simpl.
  split; [done|]. intros s [= <-].
  fold (skipped_summary date_max). rewrite skipped_summary_dom.
  split_and!; try done.
  intros db' w' date_min' date_max' lo' hi' s' Hwin' Hgt' Hs'.
  destruct (flow_returns_inv _ _ _ _ _ _ _ Hwin' Hgt' Hs') as (_ & -> & _).
  rewrite run_summary_dom. split; [done|].
  apply (bool_decide_unpack _). by vm_compute.
Qed.

(** C1: over a window that is not empty, the run writes the watermark,
    and writes [date_max], if and only if the pipeline loaded every
    configured company, which is when the summary counts as many successes
    as there are companies; if some company did not load, the watermark
    after the run is the watermark before it. *)
Theorem watermark_advances_iff_all_succeed db w date_min date_max lo hi :
  window w date_min date_max lo hi ->
  datetime_gt lo hi = false ->
  let os := outs db date_min date_max COMPANIES (ext w) in
  let w' := (flow db w).1 in
  (writes (new_events w w') = [date_max] <-> forallb is_success os = true)
  /\ (forallb is_success os = true ->
      watermark w' = Some date_max
      /\ exists s, (flow db w).2 = inr s
           /\ s !! "successful" = Some (VInt (Z.of_nat (length COMPANIES))))
  /\ (forallb is_success os = false ->
      watermark w' = watermark w /\ writes (new_events w w') = [])
  /\ (forall s, (flow db w).2 = inr s ->
      s !! "total_companies" = Some (VInt (Z.of_nat (length COMPANIES)))
      /\ (s !! "successful" = s !! "total_companies"
          <-> forallb is_success os = true)
      /\ (forall n, s !! "failed" = Some (VInt n) -> 0 < n ->
          watermark w' = watermark w)).
Proof.
  intros Hwin Hgt os w'. subst w'.
  destruct (forallb absorbed os) eqn:Habs.
  - rewrite (flow_complete _ _ _ _ _ _ Hwin Hgt Habs). fold os. simpl.
    unfold new_events. simpl. rewrite drop_app_length, writes_app, writes_invocations.
    pose proof (success_count db date_min date_max w) as Hcount. fold os in Hcount.
    pose proof (count_failed date_min date_max COMPANIES os
                  (outcomes_length _ _ _ _ _)) as Hfailed.
    pose proof (filter_length_split is_success os) as Hsplit.
    pose proof (outcomes_length db date_min date_max COMPANIES (ext w))
      as Hlen. fold os in Hlen.
    destruct (forallb is_success os) eqn:Hall; simpl.
    + apply Nat.eqb_eq in Hcount.
      split_and!; try done.
      * split; [done|]. eexists. split; [done|].
        unfold run_summary. simplify_map_eq. by rewrite Hcount.
      * intros s [= <-]. unfold run_summary. simplify_map_eq.
        split_and!; try done.
        -- by rewrite Hcount.
        -- intros n [= <-] Hn. rewrite Hfailed in Hn.
           rewrite count_success in Hcount by done. lia.
    + apply Nat.eqb_neq in Hcount.
      split_and!; try done.
      intros s [= <-]. unfold run_summary. simplify_map_eq.
      split_and!; try done.
      split; [|done]. intros [= Heq]. lia.
  - destruct (flow_interrupted _ _ _ _ _ _ Hwin Hgt Habs) as (e & k & -> & He & Hk & Hlk).
    simpl. unfold new_events. simpl. rewrite drop_app_length, writes_invocations.
    assert (forallb is_success os = false) as Hall.
    { by apply (forallb_lookup_false _ _ k (inl e)). }
    rewrite Hall. split_and!; try done.
Qed.


(** C8: in every summary that is not a skipped one, [total_companies] is
    the number of configured companies, [results] has that many Run
    Results, each of status [success] or else [failed], [successful] and
    [failed] count them, and the two counts add up to [total_companies]. *)
Theorem summary_counts_add_up db w s :
  (flow db w).2 = inr s ->
  s !! "status" <> Some (VStr "skipped") ->
  exists rs,
    s !! "results" = Some (VList (VDict <$> rs))
    /\ length rs = length COMPANIES
    /\ s !! "total_companies" = Some (VInt (Z.of_nat (length COMPANIES)))
    /\ s !! "successful"
       = Some (VInt (Z.of_nat (length (List.filter (has_status "success") rs))))
    /\ s !! "failed"
       = Some (VInt (Z.of_nat (length (List.filter (has_status "failed") rs))))
    /\ (length (List.filter (has_status "success") rs)
        + length (List.filter (has_status "failed") rs)
        = length COMPANIES)%nat
    /\ Forall (fun r => (r !! "status" = Some (VStr "success")
                         /\ has_status "failed" r = false)
                        \/ (r !! "status" = Some (VStr "failed")
                            /\ has_status "success" r = false)) rs.
Proof.
  intros Hs Hstatus.
  destruct (flow_cases db w) as [[e He]|(date_min & date_max & lo & hi & Hwin)].
  { by rewrite He in Hs. }
  destruct (datetime_gt lo hi) eqn:Hgt.
  { rewrite (flow_window _ _ _ _ _ _ Hwin), Hgt in Hs. simpl in Hs.
    injection Hs as <-. by destruct Hstatus. }
  destruct (flow_returns_inv _ _ _ _ _ _ _ Hwin Hgt Hs) as (_ & -> & _).
  pose proof (outcomes_length db date_min date_max COMPANIES (ext w))
    as Hlen.
  set (os := outs db date_min date_max COMPANIES (ext w)) in *.
  eexists. split; [done|].
  rewrite length_zip_with_l_eq by done.
  pose proof (count_success date_min date_max COMPANIES os Hlen) as Hcs.
  pose proof (count_failed date_min date_max COMPANIES os Hlen) as Hcf.
  split_and!; try done.
  - rewrite Hcs, Hcf, <- Hlen. apply filter_length_split.
  - apply results_status.
Qed.

(** C3: over a window that is not empty, when the pipeline raises an error
    (an instance of [Exception]) for a company, the loop appends a failed
    Run Result with the message of the error and goes on with the remaining
    companies; what the flow raises, if anything, is never such an error;
    and in a run that nothing interrupts the failed Run Result stands at
    the place of that company in the summary, all companies having been
    attempted. *)
Theorem company_error_is_recorded db w date_min date_max lo hi i company e :
  window w date_min date_max lo hi ->
  datetime_gt lo hi = false ->
  COMPANIES !! i = Some company ->
  outs db date_min date_max COMPANIES (ext w) !! i = Some (inl e) ->
  exn_is_Exception e = true ->
  let failed : gmap string value :=
    {[ "company" := VStr company;
       "status" := VStr "failed";
       "error" := VStr (exn_str e) ]} in
  (forall rest results w0 x,
     pipeline_run db date_min date_max company (ext w0) = (x, inl e) ->
     loop date_min date_max db (company :: rest) results w0
     = loop date_min date_max db rest (results ++ [failed])
         (mkWorld (watermark w0) (today w0) x
            (trace w0 ++ [Invoke date_min date_max company db])))
  /\ (forall e', (flow db w).2 = inl e' -> exn_is_Exception e' = false)
  /\ (forallb absorbed (outs db date_min date_max COMPANIES (ext w)) = true ->
      exists s rs,
        (flow db w).2 = inr s
        /\ s !! "results" = Some (VList (VDict <$> rs))
        /\ rs !! i = Some failed
        /\ length rs = length COMPANIES
        /\ invokes (new_events w (flow db w).1)
           = invocations date_min date_max db COMPANIES).
Proof.
  intros Hwin Hgt Hc Hi He failed. split_and!.
  - intros rest results w0 x Hrun. rewrite loop_cons, Hrun. simpl. by rewrite He.
  - intros e' He'.
    destruct (forallb absorbed (outs db date_min date_max COMPANIES (ext w)))
      eqn:Habs.
    + by rewrite (flow_complete _ _ _ _ _ _ Hwin Hgt Habs) in He'.
    + destruct (flow_interrupted _ _ _ _ _ _ Hwin Hgt Habs)
        as (e0 & k & Hf & He0 & _).
      rewrite Hf in He'. by injection He' as <-.
  - intros Habs. rewrite (flow_complete _ _ _ _ _ _ Hwin Hgt Habs). simpl.
    eexists _, _. split_and!; try done.
    + by rewrite lookup_zip_with, Hc, Hi.
    + apply length_zip_with_l_eq. symmetry. apply outcomes_length.
    + unfold new_events. simpl.
      rewrite drop_app_length, invokes_app, invokes_invocations.
      destruct (forallb is_success _); simpl; by rewrite app_nil_r.
Qed.

(** C9, as amended: an exception of any class that derives from
    [Exception], raised by the task for a company, is absorbed into a
    failed Run Result whose [error] is [str] of the exception, and the loop
    goes on; the loop returns whenever every exception raised is of that
    kind, and an exception that leaves the loop is never one. *)
Theorem exception_instances_are_absorbed date_min date_max db :
  (forall cls msg company rest results w w1,
     task date_min date_max company db w = (w1, inl (Exn cls true msg)) ->
     loop date_min date_max db (company :: rest) results w
     = loop date_min date_max db rest
         (results ++ [ {[ "company" := VStr company;
                          "status" := VStr "failed";
                          "error" := VStr msg ]} ]) w1)
  /\ (forall cs results w,
       forallb absorbed (outs db date_min date_max cs (ext w)) = true ->
       exists rs, (loop date_min date_max db cs results w).2 = inr rs)
  /\ (forall cs results w e,
       (loop date_min date_max db cs results w).2 = inl e ->
       exn_is_Exception e = false)
  /\ (forall cls msg company rest results w w1,
       task date_min date_max company db w = (w1, inl (Exn cls false msg)) ->
       loop date_min date_max db (company :: rest) results w
       = (w1, inl (Exn cls false msg))).
Proof.
  assert (Hstep : forall e company rest results w w1,
    task date_min date_max company db w = (w1, inl e) ->
    loop date_min date_max db (company :: rest) results w
    = if exn_is_Exception e
      then loop date_min date_max db rest
             (results ++ [run_result date_min date_max company (inl e)]) w1
      else (w1, inl e)).
  { intros e company rest results w w1 Htask.
    rewrite task_unfold in Htask. rewrite loop_cons.
    destruct (pipeline_run db date_min date_max company (ext w)) as [x [e'|info]];
      simpl in *; [|done].
    by injection Htask as <- ->. }
  split_and!.
  4:{ intros cls msg company rest results w w1 Htask.
      by rewrite (Hstep _ _ rest results _ _ Htask). }
  - intros cls msg company rest results w w1 Htask.
    by rewrite (Hstep _ _ rest results _ _ Htask).
  - intros cs results w Habs.
    pose proof (loop_spec date_min date_max db cs results w) as Hloop.
    simpl in Hloop.
    destruct ((loop date_min date_max db cs results w).2) as [e|rs]; [|eauto].
    destruct Hloop as (_ & _ & He & k & _ & Hk & _).
    pose proof (forallb_lookup absorbed _ k (inl e) Habs Hk) as Hk'.
    simpl in Hk'. congruence.
  - intros cs results w e He.
    pose proof (loop_spec date_min date_max db cs results w) as Hloop.
    simpl in Hloop. rewrite He in Hloop. by destruct Hloop as (_ & _ & ? & _).
Qed.

(** C5, as amended: every Run Result of a summary that is not a skipped
    one has a [company], one of the configured ones, and a [status]; with
    status [success] it has exactly the further fields [date_range], that
    of the summary, and [info]; with status [failed] it has exactly the
    further field [error], and no [date_range]. *)
Theorem run_result_fields db w s :
  (flow db w).2 = inr s ->
  s !! "status" <> Some (VStr "skipped") ->
  exists rs,
    s !! "results" = Some (VList (VDict <$> rs))
    /\ Forall (fun r : gmap string value =>
         exists company,
           company ∈ COMPANIES
           /\ r !! "company" = Some (VStr company)
           /\ ((r !! "status" = Some (VStr "success")
                /\ r !! "date_range" = s !! "date_range"
                /\ is_Some (r !! "date_range")
                /\ (exists info, r !! "info" = Some (VStr info))
                /\ dom r = {[ "company"; "status"; "date_range"; "info" ]})
               \/ (r !! "status" = Some (VStr "failed")
                   /\ (exists msg, r !! "error" = Some (VStr msg))
                   /\ r !! "date_range" = None
                   /\ dom r = {[ "company"; "status"; "error" ]}))) rs.
Proof.
  intros Hs Hstatus.
  destruct (flow_cases db w) as [[e He]|(date_min & date_max & lo & hi & Hwin)].
  { by rewrite He in Hs. }
  destruct (datetime_gt lo hi) eqn:Hgt.
  { rewrite (flow_window _ _ _ _ _ _ Hwin), Hgt in Hs. simpl in Hs.
    injection Hs as <-. by destruct Hstatus. }
  destruct (flow_returns_inv _ _ _ _ _ _ _ Hwin Hgt Hs) as (_ & -> & _).
  eexists. split; [done|].
  apply Forall_lookup. intros i r Hr.
  rewrite lookup_zip_with in Hr.
  destruct (COMPANIES !! i) as [company|] eqn:Hc; [|done]. simpl in Hr.
  destruct (outs db date_min date_max COMPANIES (ext w) !! i) as [o|]; [|done].
  injection Hr as <-. exists company.
  split; [by eapply list_elem_of_lookup_2|].
  split; [apply run_result_company|].
  rewrite run_result_dom.
  destruct o as [e|info]; [right|left]; split_and!; try done; eauto.
Qed.

(** C7: a run extends the trace by the task invocations it made and at
    most one watermark write; the external state changes through those
    invocations only and the clock not at all; with no write the watermark
    is unchanged; and a write happens only over a window that is not
    empty, of [date_max], last, after every configured company has been
    attempted and has loaded. *)
Theorem at_most_one_watermark_write db w :
  let w' := (flow db w).1 in
  let evs := new_events w w' in
  trace w' = trace w ++ evs
  /\ today w' = today w
  /\ ext w' = replay pipeline_run evs (ext w)
  /\ (length (writes evs) <= 1)%nat
  /\ (writes evs = [] -> watermark w' = watermark w)
  /\ (forall d, d ∈ writes evs ->
      exists date_min lo hi,
        window w date_min d lo hi
        /\ datetime_gt lo hi = false
        /\ forallb is_success (outs db date_min d COMPANIES (ext w)) = true
        /\ evs = invocations date_min d db COMPANIES ++ [WatermarkWrite d]
        /\ watermark w' = Some d).
Proof.
  intros w' evs. subst w' evs.
  assert (Hsame : forall r, flow db w = (w, r) ->
    let w' := (flow db w).1 in
    let evs := new_events w w' in
    trace w' = trace w ++ evs /\ today w' = today w
    /\ ext w' = replay pipeline_run evs (ext w)
    /\ (length (writes evs) <= 1)%nat
    /\ (writes evs = [] -> watermark w' = watermark w)
    /\ (forall d, d ∈ writes evs ->
        exists date_min lo hi,
          window w date_min d lo hi /\ datetime_gt lo hi = false
          /\ forallb is_success (outs db date_min d COMPANIES (ext w)) = true
          /\ evs = invocations date_min d db COMPANIES ++ [WatermarkWrite d]
          /\ watermark w' = Some d)).
  { intros r ->. simpl. rewrite new_events_same, app_nil_r. simpl.
    split_and!; try done; try lia. intros d Hd. by apply elem_of_nil in Hd. }
  destruct (flow_cases db w) as [[e He]|(date_min & date_max & lo & hi & Hwin)].
  { by apply (Hsame (inl e)). }
  destruct (datetime_gt lo hi) eqn:Hgt.
  { apply (Hsame (inr (skipped_summary date_max))).
    by rewrite (flow_window _ _ _ _ _ _ Hwin), Hgt. }
  clear Hsame.
  destruct (forallb absorbed (outs db date_min date_max COMPANIES (ext w)))
    eqn:Habs.
  - rewrite (flow_complete _ _ _ _ _ _ Hwin Hgt Habs). simpl.
    unfold new_events. simpl. rewrite drop_app_length.
    rewrite writes_app, writes_invocations, replay_app, replay_invocations.
    destruct (forallb is_success _) eqn:Hall; simpl.
    + split_and!; try done. intros d Hd. apply list_elem_of_singleton in Hd as ->.
      by exists date_min, lo, hi.
    + split_and!; try done; try lia. intros d Hd. by apply elem_of_nil in Hd.
  - destruct (flow_interrupted _ _ _ _ _ _ Hwin Hgt Habs)
      as (e & k & -> & _).
    simpl. unfold new_events. simpl.
    rewrite drop_app_length, writes_invocations, replay_invocations. simpl.
    split_and!; try done; try lia. intros d Hd. by apply elem_of_nil in Hd.
Qed.

(** ** Catching up *)

(** A run on the day of the watermark has nothing to do. *)
Lemma rerun_same_day_is_skipped db w :
  watermark w = Some (isoformat (today w)) ->
  valid (today w) = true ->
  valid (next_day (today w)) = true ->
  flow db w = (w, inr (skipped_summary (isoformat (today w)))).
Proof.
  intros Hw Hv Hv'.
  assert (window w (isoformat (next_day (today w))) (isoformat (today w))
            (next_day (today w)) (today w)) as Hwin.
  { split_and!; [|by apply parse_isoformat..].
    eapply get_next_load_date_some; [done|]. by apply parse_isoformat. }
  by rewrite (flow_window _ _ _ _ _ _ Hwin), next_day_gt.
Qed.

(** X9: after a run in which every company loaded, a second run on the
    same day is skipped: it invokes nothing and leaves the world as the
    first run left it. *)
Lemma second_run_is_skipped db w date_min date_max lo hi :
  window w date_min date_max lo hi ->
  datetime_gt lo hi = false ->
  forallb is_success (outs db date_min date_max COMPANIES (ext w)) = true ->
  valid (today w) = true ->
  valid (next_day (today w)) = true ->
  flow db (flow db w).1 = ((flow db w).1, inr (skipped_summary date_max)).
Proof.
  intros Hwin Hgt Hall Hv Hv'.
  pose proof Hwin as (Hn & _ & Hhi).
  pose proof (get_next_load_date_today _ _ _ _ Hn) as Hmax.
  rewrite (flow_complete _ _ _ _ _ _ Hwin Hgt (forallb_success_absorbed _ Hall)).
  rewrite Hall. simpl. subst date_max.
  by rewrite rerun_same_day_is_skipped.
Qed.

End FlowProperties.

(** * The scenarios, run *)

Import Scenario.

Local Ltac run := vm_compute; reflexivity.

(** Scenario A: first run, every company loads: the window is
    2024-01-01 to 2024-01-10 and the watermark becomes 2024-01-10. *)
Lemma first_run_advances :
  computes_window start first_run "2024-01-01" "2024-01-10"
    (Date 2024 1 1) (Date 2024 1 10)
  /\ datetime_gt (Date 2024 1 1) (Date 2024 1 10) = false
  /\ watermark (cfpb_complaints_incremental_flow loads companies start db
                  first_run).1
     = Some "2024-01-10".
Proof.
  assert (Hwin : computes_window start first_run "2024-01-01" "2024-01-10"
                   (Date 2024 1 1) (Date 2024 1 10)).
  { repeat split; run. }
  assert (Hgt : datetime_gt (Date 2024 1 1) (Date 2024 1 10) = false).
  { reflexivity. }
  split; [exact Hwin|]. split; [exact Hgt|].
  destruct (watermark_advances_iff_all_succeed loads companies start db
              first_run _ _ _ _ Hwin Hgt) as (_ & Hall & _).
  apply Hall. run.
Defined.

(** Scenario B: a second run on the day of the last load is skipped. *)
Lemma same_day_run_skipped :
  computes_window start same_day_run "2024-01-11" "2024-01-10"
    (Date 2024 1 11) (Date 2024 1 10)
  /\ datetime_gt (Date 2024 1 11) (Date 2024 1 10) = true
  /\ exists s,
      cfpb_complaints_incremental_flow fails_beta companies start db same_day_run
      = (same_day_run, inr s)
      /\ s !! "status" = Some (VStr "skipped").
Proof.
  assert (Hwin : computes_window start same_day_run "2024-01-11" "2024-01-10"
                   (Date 2024 1 11) (Date 2024 1 10)).
  { repeat split; run. }
  assert (Hgt : datetime_gt (Date 2024 1 11) (Date 2024 1 10) = true).
  { reflexivity. }
  split; [exact Hwin|]. split; [exact Hgt|].
  destruct (empty_window_is_skipped fails_beta companies start db
              same_day_run _ _ _ _ Hwin Hgt) as (s & Hs & Hst & _).
  exists s. split; [exact Hs | exact Hst].
Defined.

Lemma same_day_run_summary :
  computes_window start same_day_run "2024-01-11" "2024-01-10"
    (Date 2024 1 11) (Date 2024 1 10)
  /\ datetime_gt (Date 2024 1 11) (Date 2024 1 10) = true
  /\ (cfpb_complaints_incremental_flow loads companies start db same_day_run).2
     = inr {[ "status" := VStr "skipped";
              "message" := VStr "Already up to date";
              "last_date" := VStr "2024-01-10" ]}.
Proof.
  assert (Hwin : computes_window start same_day_run "2024-01-11" "2024-01-10"
                   (Date 2024 1 11) (Date 2024 1 10)).
  { repeat split; run. }
  assert (Hgt : datetime_gt (Date 2024 1 11) (Date 2024 1 10) = true).
  { reflexivity. }
  split; [exact Hwin|]. split; [exact Hgt|].
  exact (proj1 (skipped_summary_shape loads companies start db same_day_run
                  _ _ _ _ Hwin Hgt)).
Defined.

(** Scenario C, with three companies: the load of 2024-01-05 is followed
    on 2024-01-08 by a run in which [Beta Bank] fails. *)
Lemma later_run_window :
  computes_window start later_run "2024-01-06" "2024-01-08"
    (Date 2024 1 6) (Date 2024 1 8).
Proof. repeat split; run. Qed.

Lemma later_run_keeps_going :
  computes_window start later_run "2024-01-06" "2024-01-08"
    (Date 2024 1 6) (Date 2024 1 8)
  /\ datetime_gt (Date 2024 1 6) (Date 2024 1 8) = false
  /\ companies !! 1%nat = Some "Beta Bank"
  /\ outcomes fails_beta db "2024-01-06" "2024-01-08" companies (ext later_run)
       !! 1%nat
     = Some (inl (Exn "ExtractionError" true "API returned 503"))
  /\ exists s rs,
      (cfpb_complaints_incremental_flow fails_beta companies start db later_run).2
      = inr s
      /\ s !! "results" = Some (VList (VDict <$> rs))
      /\ rs !! 1%nat
         = Some {[ "company" := VStr "Beta Bank";
                   "status" := VStr "failed";
                   "error" := VStr "API returned 503" ]}
      /\ length rs = 3%nat.
Proof.
  assert (Hgt : datetime_gt (Date 2024 1 6) (Date 2024 1 8) = false).
  { reflexivity. }
  assert (Hc : companies !! 1%nat = Some "Beta Bank").
  { reflexivity. }
  assert (Ho : outcomes fails_beta db "2024-01-06" "2024-01-08" companies
                 (ext later_run) !! 1%nat
               = Some (inl (Exn "ExtractionError" true "API returned 503"))).
  { run. }
  split; [exact later_run_window|]. split; [exact Hgt|].
  split; [exact Hc|]. split; [exact Ho|].
  destruct (company_error_is_recorded fails_beta companies start db later_run
              _ _ _ _ _ _ _ later_run_window Hgt Hc Ho eq_refl)
    as (_ & _ & Hfull).
  destruct Hfull as (s & rs & Hs & Hrs & Hi & Hlen & _); [run|].
  exists s, rs. split; [exact Hs|]. split; [exact Hrs|].
  split; [exact Hi | exact Hlen].
Defined.



Lemma later_run_returns :
  (cfpb_complaints_incremental_flow fails_beta companies start db later_run).2
  = inr later_run_summary.
Proof. run. Qed.

Lemma later_run_not_skipped :
  later_run_summary !! "status" <> Some (VStr "skipped").
Proof. vm_compute. discriminate. Qed.

Lemma later_run_counts :
  (cfpb_complaints_incremental_flow fails_beta companies start db later_run).2
  = inr later_run_summary
  /\ later_run_summary !! "status" <> Some (VStr "skipped")
  /\ later_run_summary !! "total_companies" = Some (VInt 3)
  /\ exists rs,
       later_run_summary !! "results" = Some (VList (VDict <$> rs))
       /\ (length (List.filter (has_status "success") rs)
           + length (List.filter (has_status "failed") rs) = 3)%nat.
Proof.
  split; [exact later_run_returns|]. split; [exact later_run_not_skipped|].
  destruct (summary_counts_add_up fails_beta companies start db later_run _
              later_run_returns later_run_not_skipped)
    as (rs & Hrs & _ & Htot & _ & _ & Hsum & _).
  split; [exact Htot|]. exists rs. split; [exact Hrs | exact Hsum].
Defined.

(** The failed Run Result of [Beta Bank] has no [date_range]. *)
Lemma failed_result_has_no_date_range :
  exists s rs r,
    (cfpb_complaints_incremental_flow fails_beta companies start db later_run).2
    = inr s
    /\ s !! "status" = None
    /\ s !! "results" = Some (VList (VDict <$> rs))
    /\ rs !! 1%nat = Some r
    /\ r !! "status" = Some (VStr "failed")
    /\ r !! "date_range" = None.
Proof.
  exists later_run_summary, later_run_results. eexists.
  split; [exact later_run_returns|]. split; [run|]. split; [run|].
  split; [reflexivity|]. split; run.
Qed.

Lemma later_run_result_fields :
  (cfpb_complaints_incremental_flow fails_beta companies start db later_run).2
  = inr later_run_summary
  /\ later_run_summary !! "status" <> Some (VStr "skipped")
  /\ exists rs,
       later_run_summary !! "results" = Some (VList (VDict <$> rs))
       /\ Forall (fun r : gmap string value =>
            is_Some (r !! "company") /\ is_Some (r !! "status")) rs.
Proof.
  split; [exact later_run_returns|]. split; [exact later_run_not_skipped|].
  destruct (run_result_fields fails_beta companies start db later_run _
              later_run_returns later_run_not_skipped) as (rs & Hrs & Hall).
  exists rs. split; [exact Hrs|].
  eapply Forall_impl; [exact Hall|].
  intros r (c & _ & Hc & [(Hs & _)|(Hs & _)]); rewrite Hc, Hs; eauto.
Defined.

(** An interrupt from the keyboard while [Beta Bank] loads is raised by
    the task, is no instance of [Exception], and leaves the loop and the
    flow: [Gamma Loans] is not attempted and no Run Result is recorded. *)
Lemma interrupt_leaves_the_loop :
  exists w1 e,
    extract_and_load_complaints_task interrupted_beta
      "2024-01-06" "2024-01-08" "Beta Bank" db later_run = (w1, inl e)
    /\ (load_companies interrupted_beta "2024-01-06" "2024-01-08" db
          ["Beta Bank"; "Gamma Loans"] [] later_run).2 = inl e
    /\ trace (load_companies interrupted_beta "2024-01-06" "2024-01-08" db
                ["Beta Bank"; "Gamma Loans"] [] later_run).1
       = [Invoke "2024-01-06" "2024-01-08" "Beta Bank" db]
    /\ (cfpb_complaints_incremental_flow interrupted_beta companies start db
          later_run).2 = inl e.
Proof.
  eexists _, _. split; [run|]. split; [run|]. split; run.
Qed.

Lemma extraction_error_is_absorbed :
  exists w1,
    load_companies fails_beta "2024-01-06" "2024-01-08" db
      ["Beta Bank"; "Gamma Loans"] [] later_run
    = load_companies fails_beta "2024-01-06" "2024-01-08" db ["Gamma Loans"]
        [ {[ "company" := VStr "Beta Bank";
             "status" := VStr "failed";
             "error" := VStr "API returned 503" ]} ] w1.
Proof.
  eexists.
  apply (proj1 (exception_instances_are_absorbed fails_beta
                  "2024-01-06" "2024-01-08" db)
           "ExtractionError" "API returned 503" "Beta Bank" ["Gamma Loans"] []
           later_run).
  run.
Defined.

(** The window of the later run is the day after the watermark, to today. *)
Lemma later_run_next_load_date :
  get_next_load_date start later_run
  = (later_run, inr ("2024-01-06", "2024-01-08")).
Proof.
  exact (proj1 (proj1 (proj2 (get_next_load_date_window start later_run))
                  "2024-01-05" (Date 2024 1 5) eq_refl eq_refl)).
Defined.

(** The first run writes the watermark once, after the three invocations. *)
Lemma first_run_trace :
  trace (cfpb_complaints_incremental_flow loads companies start db first_run).1
  = [ Invoke "2024-01-01" "2024-01-10" "Acme Credit" db;
      Invoke "2024-01-01" "2024-01-10" "Beta Bank" db;
      Invoke "2024-01-01" "2024-01-10" "Gamma Loans" db;
      WatermarkWrite "2024-01-10" ]
  /\ (length (writes (new_events first_run
                (cfpb_complaints_incremental_flow loads companies start db
                   first_run).1)) <= 1)%nat.
Proof.
  split; [run|].
  pose proof (at_most_one_watermark_write loads companies start db first_run)
    as H.
  cbv zeta in H. destruct H as (_ & _ & _ & Hle & _). exact Hle.
Defined.

(** * Further properties of the flow *)

Section FlowEdges.

Context {Ext : Type}.
Variable pipeline_run :
  string -> string -> string -> string -> Ext -> Ext * (exn + string).
Variable COMPANIES : list string.
Variable START_DATE : string.

Abbreviation flow := (cfpb_complaints_incremental_flow pipeline_run COMPANIES START_DATE).
Abbreviation loop := (load_companies pipeline_run).
Abbreviation outs := (outcomes pipeline_run).
Abbreviation after := (ext_after pipeline_run).
Abbreviation window := (computes_window START_DATE).

Implicit Types (w : World Ext) (c company db date_min date_max : string).
Implicit Types (cs : list string) (results rs : list (gmap string value)).

(** ** A window that cannot be read *)

(** X1: when an end of the computed window is a string of ASCII
    characters that is not a date in the format [%Y-%m-%d], the flow raises
    [ValueError] from [strptime], which is outside the [try]: no company
    has been attempted, nothing is written, the world is the one the run
    started from. *)
Theorem unreadable_window_raises db w date_min date_max :
  get_next_load_date START_DATE w = (w, inr (date_min, date_max)) ->
  (is_ascii date_min = true /\ parse_date date_min = None)
  \/ (is_ascii date_max = true /\ parse_date date_max = None) ->
  exists e,
    flow db w = (w, inl e)
    /\ exn_class e = "ValueError"
    /\ exn_is_Exception e = true
    /\ new_events w (flow db w).1 = [].
Proof.
  intros Hn Hbad.
  assert (exists e, flow db w = (w, inl e) /\ exn_class e = "ValueError"
                    /\ exn_is_Exception e = true) as (e & Hf & Hc & He).
  { unfold cfpb_complaints_incremental_flow. unfold bind at 1. rewrite Hn.
    unfold bind at 1, strptime at 1.
    destruct (parse_date date_min) as [lo|] eqn:Hlo.
    - destruct Hbad as [[_ ?]|[_ Hhi]]; [done|].
      unfold ret at 1. unfold bind at 1, strptime at 1. rewrite Hhi.
      by eexists.
    - by eexists. }
  exists e. rewrite Hf. split_and!; try done. apply new_events_same.
Qed.

(** ** The ends of the window are inclusive *)

Lemma datetime_gt_irrefl d : datetime_gt d d = false.
Proof.
  unfold datetime_gt. rewrite !Z.ltb_irrefl. by rewrite !andb_false_r.
Qed.

(** X2: the test that skips a run is strict: a window of one day
    ([date_min] and [date_max] the same date) is not skipped, the task is
    invoked for the first configured company with that window. *)
Theorem one_day_window_is_loaded db w date_min date_max d company :
  window w date_min date_max d d ->
  COMPANIES !! 0%nat = Some company ->
  (flow db w).2 <> inr (skipped_summary date_max)
  /\ new_events w (flow db w).1 !! 0%nat
     = Some (Invoke date_min date_max company db).
Proof.
  intros Hwin Hc. pose proof (datetime_gt_irrefl d) as Hgt.
  destruct COMPANIES as [|c0 cs0] eqn:HC; [done|]. injection Hc as ->.
  rewrite <- HC in *.
  destruct (forallb absorbed (outs db date_min date_max COMPANIES (ext w)))
    eqn:Habs.
  - rewrite (flow_complete _ _ _ _ _ _ _ _ _ Hwin Hgt Habs). simpl.
    unfold new_events. simpl. rewrite drop_app_length. split.
    + intros Heq.
      apply (f_equal (fun r : exn + gmap string value =>
                        match r with
                        | inr m => m !! "status"
                        | inl _ => None
                        end)) in Heq.
      by vm_compute in Heq.
    + by rewrite HC.
  - destruct (flow_interrupted _ _ _ _ _ _ _ _ _ Hwin Hgt Habs)
      as (e & k & -> & _).
    simpl. unfold new_events. simpl. rewrite drop_app_length.
    split; [done|]. by rewrite HC.
Qed.

(** ** An interrupted run *)

Lemma first_unabsorbed_unique (os : list (exn + string)) k e k' e' :
  os !! k = Some (inl e) -> exn_is_Exception e = false ->
  forallb absorbed (take k os) = true ->
  os !! k' = Some (inl e') -> exn_is_Exception e' = false ->
  forallb absorbed (take k' os) = true ->
  k' = k /\ e' = e.
Proof.
  intros Hk He Hpre Hk' He' Hpre'.
  destruct (lt_eq_lt_dec k k') as [[Hlt|Heq]|Hlt].
  - pose proof (forallb_lookup absorbed (take k' os) k (inl e) Hpre') as Ha.
    rewrite lookup_take_lt in Ha by done. specialize (Ha Hk). simpl in Ha.
    congruence.
  - subst k'. split; [done|]. congruence.
  - pose proof (forallb_lookup absorbed (take k os) k' (inl e') Hpre) as Ha.
    rewrite lookup_take_lt in Ha by done. specialize (Ha Hk'). simpl in Ha.
    congruence.
Qed.

(** X3: when the first exception that [except Exception] does not catch
    is raised for the company at place [k], the flow raises that very
    exception: the task has been invoked for the companies up to that one,
    in order, and for none after it, the watermark is not written, and
    what the attempted companies did to the external state stays done. *)
Theorem interrupt_stops_the_run db w date_min date_max lo hi k e :
  window w date_min date_max lo hi ->
  datetime_gt lo hi = false ->
  outs db date_min date_max COMPANIES (ext w) !! k = Some (inl e) ->
  exn_is_Exception e = false ->
  forallb absorbed (take k (outs db date_min date_max COMPANIES (ext w))) = true ->
  flow db w
  = (mkWorld (watermark w) (today w)
       (after db date_min date_max (take (S k) COMPANIES) (ext w))
       (trace w ++ invocations date_min date_max db (take (S k) COMPANIES)),
     inl e).
Proof.
  intros Hwin Hgt Hk He Hpre.
  rewrite (flow_window _ _ _ _ _ _ _ _ _ Hwin), Hgt.
  pose proof (loop_spec pipeline_run date_min date_max db COMPANIES [] w)
    as Hloop.
  destruct (loop date_min date_max db COMPANIES [] w) as [w1 [e'|results]];
    simpl in Hloop.
  - destruct Hloop as (Hwm & Htd & He' & k' & _ & Hk' & Hpre' & Htr & Hext).
    destruct (first_unabsorbed_unique _ _ _ _ _ Hk He Hpre Hk' He' Hpre')
      as [-> ->].
    destruct w1; simpl in *; by subst.
  - destruct Hloop as (_ & _ & Hall & _).
    pose proof (forallb_lookup absorbed _ k (inl e) Hall Hk) as Ha.
    simpl in Ha. congruence.
Qed.

(** ** What the summary reports *)

Lemma outcomes_lookup db date_min date_max cs x i c :
  cs !! i = Some c ->
  outs db date_min date_max cs x !! i
  = Some (pipeline_run db date_min date_max c
            (after db date_min date_max (take i cs) x)).2.
Proof.
  revert x i. induction cs as [|c0 cs IH]; intros x [|i] Hc; try done.
  - injection Hc as ->. simpl. by destruct (pipeline_run _ _ _ _ _).
  - simpl in Hc. rewrite outcomes_cons. simpl. by apply IH.
Qed.

(** X4: the summary a run returns reports the pipeline as it ran: the Run
    Result at the place of a company is that of the pipeline run for this
    company, started from the external state the companies before it left
    behind, failed or not: [success] with [str] of the load info it
    returned, or [failed] with [str] of the exception it raised; and
    [successful] and [failed] are the numbers of pipeline runs that
    returned and that raised. *)
Theorem summary_reports_the_pipeline db w date_min date_max lo hi s :
  window w date_min date_max lo hi ->
  datetime_gt lo hi = false ->
  (flow db w).2 = inr s ->
  let os := outs db date_min date_max COMPANIES (ext w) in
  exists rs,
    s !! "results" = Some (VList (VDict <$> rs))
    /\ (forall i company,
         COMPANIES !! i = Some company ->
         exists r,
           rs !! i = Some r
           /\ r !! "company" = Some (VStr company)
           /\ match (pipeline_run db date_min date_max company
                       (after db date_min date_max (take i COMPANIES) (ext w))).2
              with
              | inr info =>
                  r !! "status" = Some (VStr "success")
                  /\ r !! "info" = Some (VStr info)
              | inl e =>
                  r !! "status" = Some (VStr "failed")
                  /\ r !! "error" = Some (VStr (exn_str e))
              end)
    /\ s !! "successful"
       = Some (VInt (Z.of_nat (length (List.filter is_success os))))
    /\ s !! "failed"
       = Some (VInt (Z.of_nat
                      (length (List.filter (fun o => negb (is_success o)) os)))).
Proof.
  intros Hwin Hgt Hs os.
  destruct (flow_returns_inv _ _ _ _ _ _ _ _ _ _ Hwin Hgt Hs) as (_ & -> & _).
  fold os.
  pose proof (outcomes_length pipeline_run db date_min date_max COMPANIES (ext w))
    as Hlen. fold os in Hlen.
  eexists. split; [done|]. split_and!.
  - intros i company Hc.
    pose proof (outcomes_lookup db date_min date_max COMPANIES (ext w) i company Hc)
      as Ho. fold os in Ho.
    eexists. split; [by rewrite lookup_zip_with, Hc, Ho|].
    split; [apply run_result_company|].
    by destruct (pipeline_run _ _ _ _ _).2.
  - unfold run_summary. simplify_map_eq. by rewrite count_success.
  - unfold run_summary. simplify_map_eq. by rewrite count_failed.
Qed.

(** ** Running again *)

Lemma get_next_load_date_frame s w w' :
  watermark w' = watermark w ->
  today w' = today w ->
  (get_next_load_date s w').2 = (get_next_load_date s w).2.
Proof.
  intros Hwm Htd.
  unfold get_next_load_date, bind, get_last_loaded_date, current_date, strptime,
    ret, raise.
  rewrite Hwm, Htd. destruct (watermark w) as [last|]; [|done].
  by destruct (parse_date last).
Qed.

Lemma invokes_write (b : bool) d :
  invokes (if b then [WatermarkWrite d] else []) = [].
Proof. by destruct b. Qed.

(** X5: a run over a window that is not empty in which some company did
    not load leaves the window to the next run: computed again on the same
    day, in the world the run left, the window is the same, and a next run
    that returns a summary has invoked the task again for every configured
    company, those that had loaded included. *)
Theorem failed_run_is_retried db w date_min date_max lo hi :
  window w date_min date_max lo hi ->
  datetime_gt lo hi = false ->
  forallb is_success (outs db date_min date_max COMPANIES (ext w)) = false ->
  let w1 := (flow db w).1 in
  window w1 date_min date_max lo hi
  /\ forall s,
      (flow db w1).2 = inr s ->
      invokes (new_events w1 (flow db w1).1)
      = invocations date_min date_max db COMPANIES.
Proof.
  intros Hwin Hgt Hall w1. pose proof Hwin as (Hn & Hlo & Hhi).
  assert (watermark w1 = watermark w /\ today w1 = today w) as [Hwm Htd].
  { subst w1.
    destruct (forallb absorbed (outs db date_min date_max COMPANIES (ext w)))
      eqn:Habs.
    - rewrite (flow_complete _ _ _ _ _ _ _ _ _ Hwin Hgt Habs). simpl.
      by rewrite Hall.
    - by destruct (flow_interrupted _ _ _ _ _ _ _ _ _ Hwin Hgt Habs)
        as (e & k & -> & _). }
  clearbody w1.
  assert (window w1 date_min date_max lo hi) as Hwin1.
  { split_and!; try done.
    pose proof (get_next_load_date_frame START_DATE w _ Hwm Htd) as Hfr.
    pose proof (get_next_load_date_world START_DATE w1) as Hw1.
    destruct (get_next_load_date START_DATE w1) as [w2 r].
    simpl in *. subst w2. by rewrite Hfr, Hn. }
  split; [done|]. intros s Hs.
  destruct (flow_returns_inv _ _ _ _ _ _ _ _ _ _ Hwin1 Hgt Hs) as (_ & _ & ->).
  rewrite invokes_app, invokes_invocations, invokes_write.
  apply app_nil_r.
Qed.

(** ** The watermark moves forward *)

Lemma next_day_valid d :
  valid d = true ->
  valid (next_day d) = true \/ next_day d = Date 10000 1 1.
Proof.
  intros Hv. apply valid_bounds in Hv as (Hy & Hm & Hd).
  destruct d as [y m dd]. simpl in *. unfold next_day. simpl.
  pose proof (days_in_month_bounds y m) as Hdim.
  destruct (dd <? days_in_month y m) eqn:Hlt.
  - apply Z.ltb_lt in Hlt. left. unfold valid. simpl.
    repeat (apply andb_true_intro; split); apply Z.leb_le; lia.
  - destruct (m <? 12) eqn:Hm12.
    + apply Z.ltb_lt in Hm12. left. unfold valid. simpl.
      pose proof (days_in_month_bounds y (m + 1)).
      repeat (apply andb_true_intro; split); apply Z.leb_le; lia.
    + destruct (Z.eq_dec y 9999) as [->|Hne]; [by right|].
      left. unfold valid. simpl.
      repeat (apply andb_true_intro; split); apply Z.leb_le; lia.
Qed.

(** The day after a date, written in ISO form, is read back as that day
    or not at all. *)
Lemma parse_next_day d lo :
  valid d = true ->
  parse_date (isoformat (next_day d)) = Some lo ->
  lo = next_day d.
Proof.
  intros Hv Hlo. destruct (next_day_valid d Hv) as [Hv'|Hover].
  - rewrite (parse_isoformat _ Hv') in Hlo. congruence.
  - rewrite Hover in Hlo. by vm_compute in Hlo.
Qed.

Lemma datetime_gt_le_trans (a b z : datetime) :
  datetime_gt b a = true -> datetime_gt b z = false -> datetime_gt z a = true.
Proof.
  unfold datetime_gt. intros H1 H2. apply not_true_iff_false in H2.
  rewrite !orb_true_iff, !andb_true_iff, !Z.ltb_lt, !Z.eqb_eq in H1, H2 |- *.
  lia.
Qed.

(** X6: a run never moves the watermark back: when the watermark after a
    run differs from the one before, it is the [date_max] of the window,
    a date after the one the old watermark held. *)
Theorem watermark_only_moves_forward db w date_min date_max lo hi last d :
  window w date_min date_max lo hi ->
  watermark w = Some last ->
  parse_date last = Some d ->
  watermark (flow db w).1 <> watermark w ->
  watermark (flow db w).1 = Some date_max
  /\ parse_date date_max = Some hi
  /\ datetime_gt hi d = true.
Proof.
  intros Hwin Hw Hd Hch. pose proof Hwin as (Hn & Hlo & Hhi).
  destruct (datetime_gt lo hi) eqn:Hgt.
  { rewrite (flow_window _ _ _ _ _ _ _ _ _ Hwin), Hgt in Hch. by destruct Hch. }
  assert (watermark (flow db w).1 = Some date_max) as Hnew.
  { destruct (forallb absorbed (outs db date_min date_max COMPANIES (ext w)))
      eqn:Habs.
    - rewrite (flow_complete _ _ _ _ _ _ _ _ _ Hwin Hgt Habs) in Hch |- *.
      simpl in *. by destruct (forallb is_success _).
    - destruct (flow_interrupted _ _ _ _ _ _ _ _ _ Hwin Hgt Habs)
        as (e & k & Hf & _).
      rewrite Hf in Hch. by destruct Hch. }
  split_and!; try done.
  rewrite (get_next_load_date_some START_DATE w last d Hw Hd) in Hn.
  injection Hn as <- _.
  pose proof (parse_date_valid _ _ Hd) as Hv.
  apply (parse_next_day d lo Hv) in Hlo as ->.
  eapply datetime_gt_le_trans; [by apply next_day_gt|done].
Qed.

(** X8: windows follow one another without a gap and without an overlap:
    after a run in which every company loaded, whenever the window is
    computed next with the watermark that run wrote, it starts on the day
    after the [date_max] of that run and ends on the current day. *)
Theorem next_window_starts_after_date_max db w date_min date_max lo hi w2 :
  window w date_min date_max lo hi ->
  datetime_gt lo hi = false ->
  forallb is_success (outs db date_min date_max COMPANIES (ext w)) = true ->
  watermark w2 = watermark (flow db w).1 ->
  get_next_load_date START_DATE w2
  = (w2, inr (isoformat (next_day hi), isoformat (today w2)))
  /\ toordinal (next_day hi) = toordinal hi + 1.
Proof.
  intros Hwin Hgt Hall Hw2. pose proof Hwin as (_ & _ & Hhi).
  rewrite (flow_complete _ _ _ _ _ _ _ _ _ Hwin Hgt
             (forallb_success_absorbed _ Hall)) in Hw2.
  simpl in Hw2. rewrite Hall in Hw2.
  split; [by apply (get_next_load_date_some _ _ date_max)|].
  apply next_day_ordinal. by eapply parse_date_valid.
Qed.

End FlowEdges.

Section NoCompanies.

Context {Ext : Type}.
Variable pipeline_run :
  string -> string -> string -> string -> Ext -> Ext * (exn + string).
Variable START_DATE : string.

(** X7: with no company configured, a run over a window that is not
    empty invokes nothing and still writes the watermark: none of zero
    companies failed.  The summary counts zero companies. *)
Theorem no_companies_still_advances db (w : World Ext) date_min date_max lo hi :
  computes_window START_DATE w date_min date_max lo hi ->
  datetime_gt lo hi = false ->
  cfpb_complaints_incremental_flow pipeline_run [] START_DATE db w
  = (mkWorld (Some date_max) (today w) (ext w)
       (trace w ++ [WatermarkWrite date_max]),
     inr {[ "date_range" := VStr (date_min +:+ " to " +:+ date_max);
            "total_companies" := VInt 0;
            "successful" := VInt 0;
            "failed" := VInt 0;
            "results" := VList [] ]}).
Proof.
  intros Hwin Hgt.
  by rewrite (flow_complete pipeline_run [] _ _ _ _ _ _ _ Hwin Hgt eq_refl).
Qed.

End NoCompanies.

(** * The further properties, on the scenarios *)

Lemma bad_start_raises :
  get_next_load_date bad_start first_run
  = (first_run, inr ("2024-02-30", "2024-01-10"))
  /\ ((is_ascii "2024-02-30" = true /\ parse_date "2024-02-30" = None)
      \/ (is_ascii "2024-01-10" = true /\ parse_date "2024-01-10" = None))
  /\ exists e,
      cfpb_complaints_incremental_flow loads companies bad_start db first_run
      = (first_run, inl e)
      /\ exn_class e = "ValueError".
Proof.
  assert (Hn : get_next_load_date bad_start first_run
               = (first_run, inr ("2024-02-30", "2024-01-10"))).
  { run. }
  assert (Hbad : (is_ascii "2024-02-30" = true
                  /\ parse_date "2024-02-30" = None)
                 \/ (is_ascii "2024-01-10" = true
                     /\ parse_date "2024-01-10" = None)).
  { left. split; reflexivity. }
  split; [exact Hn|]. split; [exact Hbad|].
  destruct (unreadable_window_raises loads companies bad_start db first_run
              _ _ Hn Hbad) as (e & Hf & Hc & _).
  exists e. split; [exact Hf | exact Hc].
Defined.

Lemma one_day_run_window :
  computes_window start one_day_run "2024-01-10" "2024-01-10"
    (Date 2024 1 10) (Date 2024 1 10).
Proof. repeat split; run. Qed.

Lemma one_day_run_loads :
  computes_window start one_day_run "2024-01-10" "2024-01-10"
    (Date 2024 1 10) (Date 2024 1 10)
  /\ companies !! 0%nat = Some "Acme Credit"
  /\ new_events one_day_run
       (cfpb_complaints_incremental_flow loads companies start db
          one_day_run).1 !! 0%nat
     = Some (Invoke "2024-01-10" "2024-01-10" "Acme Credit" db).
Proof.
  assert (Hc : companies !! 0%nat = Some "Acme Credit").
  { reflexivity. }
  split; [exact one_day_run_window|]. split; [exact Hc|].
  exact (proj2 (one_day_window_is_loaded loads companies start db one_day_run
                  _ _ _ _ one_day_run_window Hc)).
Defined.

Lemma later_run_interrupted :
  computes_window start later_run "2024-01-06" "2024-01-08"
    (Date 2024 1 6) (Date 2024 1 8)
  /\ datetime_gt (Date 2024 1 6) (Date 2024 1 8) = false
  /\ outcomes interrupted_beta db "2024-01-06" "2024-01-08" companies
       (ext later_run) !! 1%nat
     = Some (inl (Exn "KeyboardInterrupt" false ""))
  /\ cfpb_complaints_incremental_flow interrupted_beta companies start db
       later_run
     = (mkWorld (Some "2024-01-05") (Date 2024 1 8) 2%nat
          [ Invoke "2024-01-06" "2024-01-08" "Acme Credit" db;
            Invoke "2024-01-06" "2024-01-08" "Beta Bank" db ],
        inl (Exn "KeyboardInterrupt" false "")).
Proof.
  assert (Hgt : datetime_gt (Date 2024 1 6) (Date 2024 1 8) = false).
  { reflexivity. }
  assert (Hk : outcomes interrupted_beta db "2024-01-06" "2024-01-08" companies
                 (ext later_run) !! 1%nat
               = Some (inl (Exn "KeyboardInterrupt" false ""))).
  { run. }
  split; [exact later_run_window|]. split; [exact Hgt|]. split; [exact Hk|].
  exact (interrupt_stops_the_run interrupted_beta companies start db later_run
           _ _ _ _ _ _ later_run_window Hgt Hk eq_refl eq_refl).
Defined.

Lemma later_run_remembers :
  computes_window start later_run "2024-01-06" "2024-01-08"
    (Date 2024 1 6) (Date 2024 1 8)
  /\ datetime_gt (Date 2024 1 6) (Date 2024 1 8) = false
  /\ exists s rs r,
      (cfpb_complaints_incremental_flow remembers companies start db later_run).2
      = inr s
      /\ s !! "results" = Some (VList (VDict <$> rs))
      /\ rs !! 2%nat = Some r
      /\ r !! "company" = Some (VStr "Gamma Loans")
      /\ r !! "info" = Some (VStr "loaded after a failure").
Proof.
  assert (Hgt : datetime_gt (Date 2024 1 6) (Date 2024 1 8) = false).
  { reflexivity. }
  split; [exact later_run_window|]. split; [exact Hgt|].
  set (res := (cfpb_complaints_incremental_flow remembers companies start db
                 later_run).2).
  assert (Hs : res = inr match res with inr s => s | inl _ => ∅ end).
  { run. }
  destruct (summary_reports_the_pipeline remembers companies start db later_run
              _ _ _ _ _ later_run_window Hgt Hs) as (rs & Hrs & Hres & _).
  destruct (Hres 2%nat "Gamma Loans" eq_refl) as (r & Hr & Hc & Hinfo).
  assert (Ho : (remembers db "2024-01-06" "2024-01-08" "Gamma Loans"
                  (ext_after remembers db "2024-01-06" "2024-01-08"
                     (take 2 companies) (ext later_run))).2
               = inr "loaded after a failure").
  { run. }
  rewrite Ho in Hinfo.
  eexists _, rs, r. split; [exact Hs|]. split; [exact Hrs|].
  split; [exact Hr|]. split; [exact Hc | exact (proj2 Hinfo)].
Defined.

Lemma later_run_retried :
  computes_window start later_run "2024-01-06" "2024-01-08"
    (Date 2024 1 6) (Date 2024 1 8)
  /\ datetime_gt (Date 2024 1 6) (Date 2024 1 8) = false
  /\ forallb is_success
       (outcomes fails_beta db "2024-01-06" "2024-01-08" companies
          (ext later_run)) = false
  /\ computes_window start
       (cfpb_complaints_incremental_flow fails_beta companies start db
          later_run).1
       "2024-01-06" "2024-01-08" (Date 2024 1 6) (Date 2024 1 8).
Proof.
  assert (Hgt : datetime_gt (Date 2024 1 6) (Date 2024 1 8) = false).
  { reflexivity. }
  assert (Hall : forallb is_success
                   (outcomes fails_beta db "2024-01-06" "2024-01-08" companies
                      (ext later_run)) = false).
  { run. }
  split; [exact later_run_window|]. split; [exact Hgt|]. split; [exact Hall|].
  exact (proj1 (failed_run_is_retried fails_beta companies start db later_run
                  _ _ _ _ later_run_window Hgt Hall)).
Defined.

Lemma later_run_moves_forward :
  computes_window start later_run "2024-01-06" "2024-01-08"
    (Date 2024 1 6) (Date 2024 1 8)
  /\ watermark later_run = Some "2024-01-05"
  /\ parse_date "2024-01-05" = Some (Date 2024 1 5)
  /\ watermark (cfpb_complaints_incremental_flow loads companies start db
                  later_run).1 <> watermark later_run
  /\ watermark (cfpb_complaints_incremental_flow loads companies start db
                  later_run).1 = Some "2024-01-08"
  /\ datetime_gt (Date 2024 1 8) (Date 2024 1 5) = true.
Proof.
  assert (Hw : watermark later_run = Some "2024-01-05").
  { reflexivity. }
  assert (Hd : parse_date "2024-01-05" = Some (Date 2024 1 5)).
  { reflexivity. }
  assert (Hch : watermark (cfpb_complaints_incremental_flow loads companies
                             start db later_run).1 <> watermark later_run).
  { vm_compute. discriminate. }
  split; [exact later_run_window|]. split; [exact Hw|]. split; [exact Hd|].
  split; [exact Hch|].
  destruct (watermark_only_moves_forward loads companies start db later_run
              _ _ _ _ _ _ later_run_window Hw Hd Hch) as (Hnew & _ & Hlater).
  split; [exact Hnew | exact Hlater].
Defined.

Lemma first_run_window :
  computes_window start first_run "2024-01-01" "2024-01-10"
    (Date 2024 1 1) (Date 2024 1 10).
Proof. repeat split; run. Qed.

Lemma first_run_without_companies :
  computes_window start first_run "2024-01-01" "2024-01-10"
    (Date 2024 1 1) (Date 2024 1 10)
  /\ datetime_gt (Date 2024 1 1) (Date 2024 1 10) = false
  /\ trace (cfpb_complaints_incremental_flow loads [] start db first_run).1
     = [WatermarkWrite "2024-01-10"].
Proof.
  assert (Hgt : datetime_gt (Date 2024 1 1) (Date 2024 1 10) = false).
  { reflexivity. }
  split; [exact first_run_window|]. split; [exact Hgt|].
  rewrite (no_companies_still_advances loads start db first_run
             _ _ _ _ first_run_window Hgt).
  reflexivity.
Defined.

Lemma first_run_then_skipped :
  computes_window start first_run "2024-01-01" "2024-01-10"
    (Date 2024 1 1) (Date 2024 1 10)
  /\ datetime_gt (Date 2024 1 1) (Date 2024 1 10) = false
  /\ forallb is_success
       (outcomes loads db "2024-01-01" "2024-01-10" companies (ext first_run))
     = true
  /\ valid (today first_run) = true
  /\ valid (next_day (today first_run)) = true
  /\ (cfpb_complaints_incremental_flow loads companies start db
        (cfpb_complaints_incremental_flow loads companies start db
           first_run).1).2
     = inr (skipped_summary "2024-01-10").
Proof.
  assert (Hgt : datetime_gt (Date 2024 1 1) (Date 2024 1 10) = false).
  { reflexivity. }
  assert (Hall : forallb is_success
                   (outcomes loads db "2024-01-01" "2024-01-10" companies
                      (ext first_run)) = true).
  { run. }
  split; [exact first_run_window|]. split; [exact Hgt|]. split; [exact Hall|].
  split; [reflexivity|]. split; [reflexivity|].
  rewrite (second_run_is_skipped loads companies start db first_run
             _ _ _ _ first_run_window Hgt Hall eq_refl eq_refl).
  reflexivity.
Defined.

Lemma two_days_later_window :
  computes_window start first_run "2024-01-01" "2024-01-10"
    (Date 2024 1 1) (Date 2024 1 10)
  /\ datetime_gt (Date 2024 1 1) (Date 2024 1 10) = false
  /\ forallb is_success
       (outcomes loads db "2024-01-01" "2024-01-10" companies (ext first_run))
     = true
  /\ watermark two_days_later
     = watermark (cfpb_complaints_incremental_flow loads companies start db
                    first_run).1
  /\ get_next_load_date start two_days_later
     = (two_days_later, inr ("2024-01-11", "2024-01-12")).
Proof.
  assert (Hgt : datetime_gt (Date 2024 1 1) (Date 2024 1 10) = false).
  { reflexivity. }
  assert (Hall : forallb is_success
                   (outcomes loads db "2024-01-01" "2024-01-10" companies
                      (ext first_run)) = true).
  { run. }
  assert (Hw2 : watermark two_days_later
                = watermark (cfpb_complaints_incremental_flow loads companies
                               start db first_run).1).
  { run. }
  split; [exact first_run_window|]. split; [exact Hgt|]. split; [exact Hall|].
  split; [exact Hw2|].
  exact (proj1 (next_window_starts_after_date_max loads companies start db
                  first_run _ _ _ _ two_days_later first_run_window Hgt Hall
                  Hw2)).
Defined.
